(** * hyprvoice: control bus, configuration, transcription and injection

  A shallow embedding of the Go sources of hyprvoice (daemon, CLI client,
  configuration loader, transcription factory and adapters, text injector)
  together with the properties of them that the specification states.

  Conventions.
  - Go [string] is a byte sequence: Rocq [string] (a list of [ascii]).
  - Go [int] and [time.Duration] are [Z]; a duration counts nanoseconds.
    Only comparisons with zero and constants occur, so no wrap-around arises.
  - A Go [error] is observed through its [Error()] text: [error := string],
    and a nil error is [None].
  - A Go [map[K]V] is a stdpp [gmap]; indexing a missing key gives the zero
    value of [V]. *)

From Stdlib Require Import ZArith List Ascii String DecimalString.
From stdpp Require Import base option list gmap strings.

Local Open Scope string_scope.
Local Open Scope list_scope.
Local Open Scope Z_scope.

(** ** Errors and results *)

Definition error := string.

(** [(T, error)] return values: exactly one side is meaningful. *)
Inductive result (A : Type) : Type :=
| Ok (a : A)
| Err (e : error).
Arguments Ok {A} a.
Arguments Err {A} e.

Definition is_ok {A} (r : result A) : bool :=
  match r with Ok _ => true | Err _ => false end.

(** [fmt]'s [%d] verb on an integer. *)
Definition fmt_d (n : Z) : string := NilZero.string_of_int (Z.to_int n).

(** [m[k]] on a [map[string]bool]: [false] when the key is absent. *)
Definition index_bool (m : gmap string bool) (k : string) : bool :=
  default false (m !! k).

(** A map literal whose values are all [true]. *)
Definition true_set (keys : list string) : gmap string bool :=
  list_to_map ((fun k => (k, true)) <$> keys).

(** ** Package notify (internal/notify/message.go) *)

Module notify.

(** [type MessageType int], numbered by [iota]. *)
Definition MessageType := Z.

Definition MsgRecordingStarted : MessageType := 0.
Definition MsgTranscribing : MessageType := 1.
Definition MsgConfigReloaded : MessageType := 2.
Definition MsgOperationCancelled : MessageType := 3.
Definition MsgRecordingAborted : MessageType := 4.
Definition MsgInjectionAborted : MessageType := 5.

Record MessageDef := {
  Type_ : MessageType;
  ConfigKey : string;
  DefaultTitle : string;
  DefaultBody : string;
  IsError : bool
}.

Definition MessageDefs : list MessageDef := [
  Build_MessageDef MsgRecordingStarted "recording_started" "Hyprvoice" "Recording Started" false;
  Build_MessageDef MsgTranscribing "transcribing" "Hyprvoice" "Recording Ended... Transcribing" false;
  Build_MessageDef MsgConfigReloaded "config_reloaded" "Hyprvoice" "Config Reloaded" false;
  Build_MessageDef MsgOperationCancelled "operation_cancelled" "Hyprvoice" "Operation Cancelled" false;
  Build_MessageDef MsgRecordingAborted "recording_aborted" "" "Recording Aborted" true;
  Build_MessageDef MsgInjectionAborted "injection_aborted" "" "Injection Aborted" true
].

Record Message := {
  Title : string;
  Body : string;
  MsgIsError : bool
}.

(** *** Notifiers (the [Notifier] interface and its three implementations) *)

Inductive Notifier :=
| Desktop (messages : gmap Z Message)
| Log (messages : gmap Z Message)
| Nop.

Definition NewDesktop (messages : gmap Z Message) := Desktop messages.
Definition NewLog (messages : gmap Z Message) := Log messages.

Definition NewNotifier (notifType : string) (messages : gmap Z Message)
    : Notifier :=
  if String.eqb notifType "desktop" then NewDesktop messages
  else if String.eqb notifType "log" then NewLog messages
  else Nop.

(** What a notifier emits: a [notify-send] invocation (with critical
    urgency or not) or a log line. *)
Inductive Output :=
| NotifySend (critical : bool) (title body : string)
| LogLine (line : string).

Definition Error (n : Notifier) (msg : string) : list Output :=
  match n with
  | Desktop _ => [NotifySend true "Hyprvoice Error" msg]
  | Log _ => [LogLine ("Hyprvoice Error: " +:+ msg)]
  | Nop => []
  end.

Definition Send (n : Notifier) (mt : MessageType) : list Output :=
  match n with
  | Desktop messages =>
      match messages !! mt with
      | None => []
      | Some msg =>
          if MsgIsError msg then Error n (Body msg)
          else [NotifySend false (Title msg) (Body msg)]
      end
  | Log messages =>
      match messages !! mt with
      | None => []
      | Some msg =>
          if MsgIsError msg then Error n (Body msg)
          else [LogLine (Title msg +:+ ": " +:+ Body msg)]
      end
  | Nop => []
  end.

End notify.

(** ** The outside world

  The code reaches the operating system, the network and helper programs
  through library calls. A function that does so is embedded as a
  computation that reads the answers from an oracle and records, in program
  order, every call it makes. *)

Module sys.

(** An argument of a [log.Printf] line; the elapsed time of a request is
    not otherwise observable. *)
Inductive LogArg :=
| AInt (n : Z)
| AStr (s : string)
| AQuoted (s : string)
| AElapsed.

(** One part of a multipart form body. *)
Inductive Part :=
| FormFile (fieldname filename content : string)
| FormField (fieldname value : string).

(** A [context.Context] as the callee sees it: the error [ctx.Err()]
    reports when it is already done, and the time left to its deadline. *)
Record Context := {
  ctx_err : option error;
  ctx_left : option Z
}.

(** An HTTP request, bound to the context it was created with. *)
Record Request := {
  Ctx : Context;
  Method : string;
  URL : string;
  ContentType : string;
  Form : list Part
}.

Record Response := {
  StatusCode : Z;
  Body : string
}.

(** The request of the OpenAI-compatible client's [CreateTranscription]. *)
Record AudioRequest := {
  AudioModel : string;
  Reader : string;
  FilePath : string;
  AudioLanguage : string
}.

Definition Background : Context := {| ctx_err := None; ctx_left := None |}.

Definition WithTimeout (ctx : Context) (timeout : Z) : Context :=
  {| ctx_err := ctx_err ctx;
     ctx_left := match ctx_left ctx with
                 | Some d => Some (Z.min d timeout)
                 | None => Some timeout
                 end |}.

Inductive Call :=
| Log (format : string) (args : list LogArg)
| HttpDo (req : Request)
| CreateTranscription (ctx : Context) (req : AudioRequest)
| LookPath (file : string)
| Getenv (name : string)
| Sleep (d : Z)
| Run (argv : list string)
| CheckClipboardAvailable
| GetClipboard (timeout : Z)
| SetClipboard (text : string) (timeout : Z)
| Go (after : Z) (call : Call).

(** The answers of the outside world. [convertToWAV] and the three
    clipboard helpers are functions of the repository whose files are
    missing; they are parameters here, like the library calls. *)
Record World := {
  convertToWAV : string -> result string;
  new_request : string -> option error;
  http_do : Request -> result Response;
  json_text : string -> result string;
  create_transcription : Context -> AudioRequest -> result string;
  look_path : string -> option error;
  getenv : string -> string;
  run : Context -> list string -> option error;
  checkClipboardAvailable : option error;
  getClipboard : Context -> Z -> result string;
  setClipboard : Context -> string -> Z -> option error
}.

(** Computations: given the world, a value and the calls made. *)
Definition M (A : Type) : Type := World -> A * list Call.

Definition ret {A} (a : A) : M A := fun _ => (a, []).

Definition bind {A B} (m : M A) (k : A -> M B) : M B :=
  fun w => let (a, t1) := m w in
           let (b, t2) := k a w in
           (b, t1 ++ t2).

(** Make a call and read its answer. *)
Definition call {A} (c : Call) (answer : World -> A) : M A :=
  fun w => (answer w, [c]).

(** Read a pure parameter of the world without an observable call. *)
Definition ask {A} (answer : World -> A) : M A :=
  fun w => (answer w, []).

Definition value {A} (m : M A) (w : World) : A := fst (m w).
Definition calls {A} (m : M A) (w : World) : list Call := snd (m w).

End sys.

Notation "'let*' x ':=' m 'in' k" := (sys.bind m (fun x => k))
  (at level 10, x name, m at level 100, k at level 200).
Notation "'do*' m 'in' k" := (sys.bind m (fun _ => k))
  (at level 10, m at level 100, k at level 200).

(** ** Package transcriber: configuration and factory
  (internal/transcriber/transcriber.go) *)

Module transcriber.

Record Config := {
  Provider : string;
  APIKey : string;
  Language : string;
  Model : string;
  ServerURL : string
}.

(** The implementations of the [TranscriptionAdapter] interface: a value
    of this type is an adapter built by the constructor of the same name. *)
Inductive TranscriptionAdapter :=
| OpenAIAdapter (config : Config)
| GroqTranscriptionAdapter (config : Config)
| GroqTranslationAdapter (config : Config)
| WhisperCppAdapter (serverURL : string) (config : Config)
| MistralAdapter (config : Config).

(** Modelled from the spec: the constructors of the hosted OpenAI and Groq
    adapters, whose files are missing; each variant is selected by the
    provider tag and keeps the configuration it is given. *)
Definition NewOpenAIAdapter (config : Config) := OpenAIAdapter config.
Definition NewGroqTranscriptionAdapter (config : Config) :=
  GroqTranscriptionAdapter config.
Definition NewGroqTranslationAdapter (config : Config) :=
  GroqTranslationAdapter config.

(** [NewWhisperCppAdapter] copies the server URL and fixes the HTTP
    client timeout to 60 s. *)
Definition NewWhisperCppAdapter (config : Config) :=
  WhisperCppAdapter (ServerURL config) config.

(** [NewMistralAdapter] points an OpenAI-compatible client at
    https://api.mistral.ai/v1 with the configured key. *)
Definition NewMistralAdapter (config : Config) := MistralAdapter config.

(** Modelled from the spec: the simple transcriber, whose file is
    missing; it collects all audio and owns one adapter. Its tests state that
    it starts stopped with an empty audio buffer. *)
Record Transcriber := {
  t_config : Config;
  t_adapter : TranscriptionAdapter;
  t_running : bool;
  t_audioBuffer : string
}.

(** Modelled from the spec: [NewSimpleTranscriber], missing with the
    simple transcriber's file. *)
Definition NewSimpleTranscriber (config : Config)
    (adapter : TranscriptionAdapter) : Transcriber :=
  {| t_config := config; t_adapter := adapter;
     t_running := false; t_audioBuffer := "" |}.

Definition NewTranscriber (config : Config) : result Transcriber :=
  let provider := Provider config in
  if String.eqb provider "openai" then
    if String.eqb (APIKey config) "" then Err "OpenAI API key required"
    else Ok (NewSimpleTranscriber config (NewOpenAIAdapter config))
  else if String.eqb provider "groq-transcription" then
    if String.eqb (APIKey config) "" then Err "Groq API key required"
    else Ok (NewSimpleTranscriber config (NewGroqTranscriptionAdapter config))
  else if String.eqb provider "groq-translation" then
    if String.eqb (APIKey config) "" then Err "Groq API key required"
    else Ok (NewSimpleTranscriber config (NewGroqTranslationAdapter config))
  else if String.eqb provider "whisper-cpp" then
    if String.eqb (ServerURL config) "" then Err "whisper.cpp server URL required"
    else Ok (NewSimpleTranscriber config (NewWhisperCppAdapter config))
  else Err ("unsupported provider: " +:+ provider).

(** *** The whisper.cpp adapter (internal/transcriber/adapter_whisper_cpp.go) *)

Definition StatusOK : Z := 200.

(** The multipart body is written into an in-memory buffer, where the
    writer's calls cannot fail: their error branches are not reachable and
    the body is the list of parts written. [FormDataContentType] is
    multipart/form-data with the writer's random boundary. *)
Definition whisper_form (config : Config) (wavData : string) : list sys.Part :=
  [sys.FormFile "file" "audio.wav" wavData]
  ++ (if negb (String.eqb (Language config) "")
      then [sys.FormField "language" (Language config)] else [])
  ++ [sys.FormField "temperature" "0.0";
      sys.FormField "temperature_inc" "0.2";
      sys.FormField "response_format" "json"].

(** [http.NewRequestWithContext] with the POST method, the server URL and
    the form as body, and the content-type header set. *)
Definition whisper_request (serverURL : string) (config : Config)
    (ctx : sys.Context) (wavData : string) : sys.Request :=
  {| sys.Ctx := ctx; sys.Method := "POST"; sys.URL := serverURL;
     sys.ContentType := "multipart/form-data";
     sys.Form := whisper_form config wavData |}.

Definition WhisperCpp_Transcribe (serverURL : string) (config : Config)
    (ctx : sys.Context) (audioData : string) : sys.M (string * option error) :=
  if (String.length audioData =? 0)%nat then sys.ret ("", None)
  else
    let* wav := sys.ask (fun w => sys.convertToWAV w audioData) in
    match wav with
    | Err e => sys.ret ("", Some ("convert to WAV: " +:+ e))
    | Ok wavData =>
        let* bad := sys.ask (fun w => sys.new_request w serverURL) in
        match bad with
        | Some e => sys.ret ("", Some ("create request: " +:+ e))
        | None =>
            let req := whisper_request serverURL config ctx wavData in
            let* r := sys.call (sys.HttpDo req) (fun w => sys.http_do w req) in
            match r with
            | Err e =>
                sys.ret ("", Some ("send request to whisper.cpp server: " +:+ e))
            | Ok resp =>
                if negb (sys.StatusCode resp =? StatusOK) then
                  let body := sys.Body resp in
                  do* sys.call (sys.Log "whisper-cpp-adapter: server returned status %d: %s"
                                    [sys.AInt (sys.StatusCode resp); sys.AStr body])
                           (fun _ => tt) in
                  sys.ret ("", Some ("whisper.cpp server error: status "
                                     +:+ fmt_d (sys.StatusCode resp)))
                else
                  let* result := sys.ask (fun w => sys.json_text w (sys.Body resp)) in
                  match result with
                  | Err e => sys.ret ("", Some ("decode response: " +:+ e))
                  | Ok text =>
                      do* sys.call (sys.Log "whisper-cpp-adapter: transcribed %d bytes in %v: %q"
                                        [sys.AInt (Z.of_nat (String.length audioData));
                                         sys.AElapsed; sys.AQuoted text])
                               (fun _ => tt) in
                      sys.ret (text, None)
                  end
            end
        end
    end.

(** *** The Mistral adapter *)

Definition Mistral_Transcribe (config : Config)
    (ctx : sys.Context) (audioData : string) : sys.M (string * option error) :=
  if (String.length audioData =? 0)%nat then sys.ret ("", None)
  else
    let* wav := sys.ask (fun w => sys.convertToWAV w audioData) in
    match wav with
    | Err e => sys.ret ("", Some ("convert to WAV: " +:+ e))
    | Ok wavData =>
        let req := {| sys.AudioModel := Model config;
                      sys.Reader := wavData;
                      sys.FilePath := "audio.wav";
                      sys.AudioLanguage := Language config |} in
        let* r := sys.call (sys.CreateTranscription ctx req)
                      (fun w => sys.create_transcription w ctx req) in
        match r with
        | Err e =>
            do* sys.call (sys.Log "mistral-adapter: API call failed after %v: %v"
                              [sys.AElapsed; sys.AStr e])
                     (fun _ => tt) in
            sys.ret ("", Some ("mistral transcription: " +:+ e))
        | Ok text =>
            do* sys.call (sys.Log "mistral-adapter: transcribed %d bytes in %v: %q"
                              [sys.AInt (Z.of_nat (String.length audioData));
                               sys.AElapsed; sys.AQuoted text])
                     (fun _ => tt) in
            sys.ret (text, None)
        end
    end.

End transcriber.

(** ** Package config (internal/config/config.go) *)

Module config.

Record RecordingConfig := {
  SampleRate : Z;
  Channels : Z;
  Format : string;
  BufferSize : Z;
  Device : string;
  ChannelBufferSize : Z;
  Timeout : Z
}.

Record TranscriptionConfig := {
  Provider : string;
  APIKey : string;
  Language : string;
  Model : string;
  ServerURL : string
}.

Record InjectionConfig := {
  Backends : list string;
  YdotoolTimeout : Z;
  WtypeTimeout : Z;
  WtypeDelay : Z;
  ClipboardTimeout : Z
}.

Record MessageConfig := {
  Title : string;
  Body : string
}.

Record MessagesConfig := {
  RecordingStarted : MessageConfig;
  Transcribing : MessageConfig;
  ConfigReloaded : MessageConfig;
  OperationCancelled : MessageConfig;
  RecordingAborted : MessageConfig;
  InjectionAborted : MessageConfig
}.

Record NotificationsConfig := {
  Enabled : bool;
  Type_ : string;
  Messages : MessagesConfig
}.

Record Config := {
  Recording : RecordingConfig;
  Transcription : TranscriptionConfig;
  Injection : InjectionConfig;
  Notifications : NotificationsConfig
}.

(** *** Resolve *)

(** What [reflect] sees of [MessagesConfig]: the toml tag of each field, in
    declaration order, and the field selected by an index. *)
Definition MessagesConfig_tags : list string :=
  ["recording_started"; "transcribing"; "config_reloaded";
   "operation_cancelled"; "recording_aborted"; "injection_aborted"].

Definition NumField : nat := length MessagesConfig_tags.

(** [v.Field(idx)]; an index beyond the last field panics in Go and is
    never requested, since indices come from [tagToField]. *)
Definition Field (m : MessagesConfig) (idx : nat) : MessageConfig :=
  match idx with
  | 0%nat => RecordingStarted m
  | 1%nat => Transcribing m
  | 2%nat => ConfigReloaded m
  | 3%nat => OperationCancelled m
  | 4%nat => RecordingAborted m
  | 5%nat => InjectionAborted m
  | _ => {| Title := ""; Body := "" |}
  end.

(** The loop [for i := 0; i < t.NumField(); i++ { tagToField[tag(i)] = i }]. *)
Definition tagToField : gmap string nat :=
  foldl (fun acc i => <[nth i MessagesConfig_tags "" := i]> acc)
        ∅ (seq 0 NumField).

(** One iteration of the loop over [notify.MessageDefs]. *)
Definition resolve_def (m : MessagesConfig) (def : notify.MessageDef)
    : notify.Message :=
  let msg := {| notify.Title := notify.DefaultTitle def;
                notify.Body := notify.DefaultBody def;
                notify.MsgIsError := notify.IsError def |} in
  match tagToField !! notify.ConfigKey def with
  | Some idx =>
      let userMsg := Field m idx in
      let msg :=
        if negb (String.eqb (Title userMsg) "")
        then {| notify.Title := Title userMsg;
                notify.Body := notify.Body msg;
                notify.MsgIsError := notify.MsgIsError msg |}
        else msg in
      if negb (String.eqb (Body userMsg) "")
      then {| notify.Title := notify.Title msg;
              notify.Body := Body userMsg;
              notify.MsgIsError := notify.MsgIsError msg |}
      else msg
  | None => msg
  end.

Definition Resolve (m : MessagesConfig) : gmap Z notify.Message :=
  foldl (fun result def => <[notify.Type_ def := resolve_def m def]> result)
        ∅ notify.MessageDefs.

(** *** Conversion to the transcriber's view *)

(** The process environment; [os.Getenv] gives [""] for an unset name. *)
Definition Getenv (env : gmap string string) (name : string) : string :=
  default "" (env !! name).

Definition ToTranscriberConfig (env : gmap string string) (c : Config)
    : transcriber.Config :=
  let t := Transcription c in
  let apiKey :=
    if String.eqb (APIKey t) "" then
      if String.eqb (Provider t) "openai" then Getenv env "OPENAI_API_KEY"
      else if String.eqb (Provider t) "groq-transcription"
              || String.eqb (Provider t) "groq-translation"
           then Getenv env "GROQ_API_KEY"
      else if String.eqb (Provider t) "mistral-transcription"
           then Getenv env "MISTRAL_API_KEY"
      else APIKey t
    else APIKey t in
  {| transcriber.Provider := Provider t;
     transcriber.APIKey := apiKey;
     transcriber.Language := Language t;
     transcriber.Model := Model t;
     transcriber.ServerURL := ServerURL t |}.

(** *** Validate *)

(** The error [Validate] returns. Its texts embed [%v]-formatted durations;
    the embedding keeps the failed check and the offending value. *)
Inductive ValidateError :=
| InvalidSampleRate (n : Z)
| InvalidChannels (n : Z)
| InvalidBufferSize (n : Z)
| InvalidChannelBufferSize (n : Z)
| InvalidFormatEmpty
| InvalidRecordingTimeout (d : Z)
| InvalidProviderEmpty
| OpenAIKeyRequired
| GroqKeyRequired
| MistralKeyRequired
| InvalidLanguage (code : string)
| InvalidGroqTranscriptionModel (model : string)
| InvalidGroqTranslationModel (model : string)
| InvalidMistralModel (model : string)
| WhisperServerURLRequired
| UnsupportedProvider (provider : string)
| InvalidModelEmpty
| InvalidBackendsEmpty
| UnknownBackend (backend : string)
| InvalidYdotoolTimeout (d : Z)
| InvalidWtypeTimeout (d : Z)
| InvalidClipboardTimeout (d : Z)
| InvalidNotificationsType (t : string).

Definition validCodes : gmap string bool := true_set [
  "en"; "es"; "fr"; "de"; "it"; "pt";
  "ru"; "ja"; "ko"; "zh"; "ar"; "hi";
  "nl"; "sv"; "da"; "no"; "fi"; "pl";
  "tr"; "he"; "th"; "vi"; "id"; "ms";
  "uk"; "cs"; "hu"; "ro"; "bg"; "hr";
  "sk"; "sl"; "et"; "lv"; "lt"; "mt";
  "cy"; "ga"; "eu"; "ca"; "gl"; "is";
  "mk"; "sq"; "az"; "be"; "ka"; "hy";
  "kk"; "ky"; "tg"; "uz"; "mn"; "ne";
  "si"; "km"; "lo"; "my"; "fa"; "ps";
  "ur"; "bn"; "ta"; "te"; "ml"; "kn";
  "gu"; "pa"; "or"; "as"; "mr"; "sa";
  "sw"; "yo"; "ig"; "ha"; "zu"; "xh";
  "af"; "am"; "mg"; "so"; "sn"; "rw"].

Definition isValidLanguageCode (code : string) : bool :=
  index_bool validCodes code.

(** [if bad { return e }] followed by the rest of the function. *)
Definition reject_if (bad : bool) (e : ValidateError)
    (rest : option ValidateError) : option ValidateError :=
  if bad then Some e else rest.

Notation "'reject' e 'when' b ;; rest" := (reject_if b e rest)
  (at level 10, e at level 9, b at level 99, rest at level 200,
   format "'[v' 'reject'  e  'when'  b  ;; '/' rest ']'").

(** The language check shared by every provider case. *)
Definition language_check (t : TranscriptionConfig)
    (rest : option ValidateError) : option ValidateError :=
  reject (InvalidLanguage (Language t))
    when negb (String.eqb (Language t) "") && negb (isValidLanguageCode (Language t)) ;;
  rest.

(** The key looked up in the config first and in the environment second. *)
Definition key_or_env (env : gmap string string) (t : TranscriptionConfig)
    (name : string) : string :=
  if String.eqb (APIKey t) "" then Getenv env name else APIKey t.

Definition validGroqModels : gmap string bool :=
  true_set ["whisper-large-v3"; "whisper-large-v3-turbo"].
Definition validMistralModels : gmap string bool :=
  true_set ["voxtral-mini-latest"; "voxtral-mini-2507"].
Definition validBackends : gmap string bool :=
  true_set ["ydotool"; "wtype"; "clipboard"].
Definition validTypes : gmap string bool :=
  true_set ["desktop"; "log"; "none"].

(** The [switch c.Transcription.Provider]. *)
Definition provider_check (env : gmap string string) (t : TranscriptionConfig)
    (rest : option ValidateError) : option ValidateError :=
  let provider := Provider t in
  if String.eqb provider "openai" then
    reject OpenAIKeyRequired
      when String.eqb (key_or_env env t "OPENAI_API_KEY") "" ;;
    language_check t rest
  else if String.eqb provider "groq-transcription" then
    reject GroqKeyRequired
      when String.eqb (key_or_env env t "GROQ_API_KEY") "" ;;
    language_check t (
    reject (InvalidGroqTranscriptionModel (Model t))
      when negb (String.eqb (Model t) "") && negb (index_bool validGroqModels (Model t)) ;;
    rest)
  else if String.eqb provider "groq-translation" then
    reject GroqKeyRequired
      when String.eqb (key_or_env env t "GROQ_API_KEY") "" ;;
    language_check t (
    reject (InvalidGroqTranslationModel (Model t))
      when negb (String.eqb (Model t) "") && negb (String.eqb (Model t) "whisper-large-v3") ;;
    rest)
  else if String.eqb provider "mistral-transcription" then
    reject MistralKeyRequired
      when String.eqb (key_or_env env t "MISTRAL_API_KEY") "" ;;
    language_check t (
    reject (InvalidMistralModel (Model t))
      when negb (String.eqb (Model t) "") && negb (index_bool validMistralModels (Model t)) ;;
    rest)
  else if String.eqb provider "whisper-cpp" then
    reject WhisperServerURLRequired when String.eqb (ServerURL t) "" ;;
    language_check t rest
  else Some (UnsupportedProvider provider).

(** The loop [for _, backend := range c.Injection.Backends]. *)
Fixpoint backends_check (backends : list string)
    (rest : option ValidateError) : option ValidateError :=
  match backends with
  | [] => rest
  | backend :: more =>
      reject (UnknownBackend backend) when negb (index_bool validBackends backend) ;;
      backends_check more rest
  end.

Definition Validate (env : gmap string string) (c : Config)
    : option ValidateError :=
  let r := Recording c in
  let t := Transcription c in
  let i := Injection c in
  reject (InvalidSampleRate (SampleRate r)) when SampleRate r <=? 0 ;;
  reject (InvalidChannels (Channels r)) when Channels r <=? 0 ;;
  reject (InvalidBufferSize (BufferSize r)) when BufferSize r <=? 0 ;;
  reject (InvalidChannelBufferSize (ChannelBufferSize r))
    when ChannelBufferSize r <=? 0 ;;
  reject InvalidFormatEmpty when String.eqb (Format r) "" ;;
  reject (InvalidRecordingTimeout (Timeout r)) when Timeout r <=? 0 ;;
  reject InvalidProviderEmpty when String.eqb (Provider t) "" ;;
  provider_check env t (
  reject InvalidModelEmpty
    when negb (String.eqb (Provider t) "whisper-cpp") && String.eqb (Model t) "" ;;
  reject InvalidBackendsEmpty when (length (Backends i) =? 0)%nat ;;
  backends_check (Backends i) (
  reject (InvalidYdotoolTimeout (YdotoolTimeout i)) when YdotoolTimeout i <=? 0 ;;
  reject (InvalidWtypeTimeout (WtypeTimeout i)) when WtypeTimeout i <=? 0 ;;
  reject (InvalidClipboardTimeout (ClipboardTimeout i))
    when ClipboardTimeout i <=? 0 ;;
  reject (InvalidNotificationsType (Type_ (Notifications c)))
    when negb (index_bool validTypes (Type_ (Notifications c))) ;;
  None)).

(** *** Load and the migration of the legacy [injection.mode] key *)

Definition Second : Z := 1000000000.
Definition Minute : Z := 60 * Second.

Definition set_Backends (c : Config) (backends : list string) : Config :=
  {| Recording := Recording c;
     Transcription := Transcription c;
     Injection := {| Backends := backends;
                     YdotoolTimeout := YdotoolTimeout (Injection c);
                     WtypeTimeout := WtypeTimeout (Injection c);
                     WtypeDelay := WtypeDelay (Injection c);
                     ClipboardTimeout := ClipboardTimeout (Injection c) |};
     Notifications := Notifications c |}.

Definition set_YdotoolTimeout (c : Config) (d : Z) : Config :=
  {| Recording := Recording c;
     Transcription := Transcription c;
     Injection := {| Backends := Backends (Injection c);
                     YdotoolTimeout := d;
                     WtypeTimeout := WtypeTimeout (Injection c);
                     WtypeDelay := WtypeDelay (Injection c);
                     ClipboardTimeout := ClipboardTimeout (Injection c) |};
     Notifications := Notifications c |}.

(** [migrateInjectionMode] converts the old mode field to the backends
    array; the log lines it prints are not modelled. *)
Definition migrateInjectionMode (c : Config) (mode : string) : Config :=
  let c :=
    if String.eqb mode "clipboard" then set_Backends c ["clipboard"]
    else if String.eqb mode "type" then set_Backends c ["wtype"]
    else if String.eqb mode "fallback" then set_Backends c ["wtype"; "clipboard"]
    else set_Backends c ["ydotool"; "wtype"; "clipboard"] in
  if YdotoolTimeout (Injection c) =? 0
  then set_YdotoolTimeout c (5 * Second)
  else c.

(** What the two [toml.DecodeFile] calls of [Load] read from a file: the
    document decoded into a [Config] (absent keys keep their zero value,
    keys the struct does not declare are ignored) or the parse error, and
    the value of the legacy key [injection.mode] ([""] when absent). *)
Record TomlFile := {
  decode_Config : result Config;
  decode_legacy_mode : string
}.

(** The part of the file system [Load] touches. *)
Record FileSystem := {
  UserConfigDir : result string;
  MkdirAll : option error;
  files : gmap string TomlFile;
  Create : option error;
  WriteString : option error
}.

Definition Join (dir name : string) : string := dir +:+ "/" +:+ name.

Definition GetConfigPath (fs : FileSystem) : result string :=
  match UserConfigDir fs with
  | Err e => Err ("failed to get user config directory: " +:+ e)
  | Ok configDir =>
      let hyprvoiceDir := Join configDir "hyprvoice" in
      match MkdirAll fs with
      | Some e => Err ("failed to create config directory: " +:+ e)
      | None => Ok (Join hyprvoiceDir "config.toml")
      end
  end.

Definition zero_MessageConfig : MessageConfig := {| Title := ""; Body := "" |}.

Definition zero_Config : Config :=
  {| Recording := {| SampleRate := 0; Channels := 0; Format := "";
                     BufferSize := 0; Device := ""; ChannelBufferSize := 0;
                     Timeout := 0 |};
     Transcription := {| Provider := ""; APIKey := ""; Language := "";
                         Model := ""; ServerURL := "" |};
     Injection := {| Backends := []; YdotoolTimeout := 0; WtypeTimeout := 0;
                     WtypeDelay := 0; ClipboardTimeout := 0 |};
     Notifications :=
       {| Enabled := false; Type_ := "";
          Messages := {| RecordingStarted := zero_MessageConfig;
                         Transcribing := zero_MessageConfig;
                         ConfigReloaded := zero_MessageConfig;
                         OperationCancelled := zero_MessageConfig;
                         RecordingAborted := zero_MessageConfig;
                         InjectionAborted := zero_MessageConfig |} |} |}.

(** The keys that the text written by [SaveDefaultConfig] sets. *)
Definition default_Config : Config :=
  {| Recording := {| SampleRate := 16000; Channels := 1; Format := "s16";
                     BufferSize := 8192; Device := "";
                     ChannelBufferSize := 30; Timeout := 5 * Minute |};
     Transcription := {| Provider := "openai"; APIKey := ""; Language := "";
                         Model := "whisper-1"; ServerURL := "" |};
     Injection := {| Backends := ["ydotool"; "wtype"; "clipboard"];
                     YdotoolTimeout := 5 * Second;
                     WtypeTimeout := 5 * Second;
                     WtypeDelay := 0;
                     ClipboardTimeout := 3 * Second |};
     Notifications := {| Enabled := true; Type_ := "desktop";
                         Messages := Messages (Notifications zero_Config) |} |}.

Definition set_file (fs : FileSystem) (path : string) (f : TomlFile)
    : FileSystem :=
  {| UserConfigDir := UserConfigDir fs; MkdirAll := MkdirAll fs;
     files := <[path := f]> (files fs);
     Create := Create fs; WriteString := WriteString fs |}.

(** What a file holding the text of [SaveDefaultConfig] decodes to, and
    what an empty file decodes to. *)
Definition default_file : TomlFile :=
  {| decode_Config := Ok default_Config; decode_legacy_mode := "" |}.
Definition empty_file : TomlFile :=
  {| decode_Config := Ok zero_Config; decode_legacy_mode := "" |}.

(** [os.Create] truncates the file; a failed write leaves it empty. *)
Definition SaveDefaultConfig (fs : FileSystem) : option error * FileSystem :=
  match GetConfigPath fs with
  | Err e => (Some e, fs)
  | Ok configPath =>
      match Create fs with
      | Some e => (Some ("failed to create config file: " +:+ e), fs)
      | None =>
          match WriteString fs with
          | Some e =>
              (Some ("failed to write config content: " +:+ e),
               set_file fs configPath empty_file)
          | None => (None, set_file fs configPath default_file)
          end
      end
  end.

(** [Load] once the file is known to exist. *)
Definition load_file (configPath : string) (f : TomlFile) : result Config :=
  match decode_Config f with
  | Err e => Err ("failed to parse config file " +:+ configPath +:+ ": " +:+ e)
  | Ok config =>
      if (length (Backends (Injection config)) =? 0)%nat
      then Ok (migrateInjectionMode config (decode_legacy_mode f))
      else Ok config
  end.

(** [Load]. When the file is missing it is created with the defaults and
    [Load] calls itself; that second call finds the file just written, so
    the recursion is unrolled once here. *)
Definition Load (fs : FileSystem) : result Config * FileSystem :=
  match GetConfigPath fs with
  | Err e => (Err e, fs)
  | Ok configPath =>
      match files fs !! configPath with
      | None =>
          match SaveDefaultConfig fs with
          | (Some e, fs') => (Err ("failed to create default config: " +:+ e), fs')
          | (None, fs') => (load_file configPath default_file, fs')
          end
      | Some f => (load_file configPath f, fs)
      end
  end.

End config.

(** ** Package injection (the injector and internal/injection/typing.go) *)

Module injection.

Record Config := {
  Mode : string;
  RestoreClipboard : bool;
  WtypeTimeout : Z;
  WtypeDelay : Z;
  ClipboardTimeout : Z
}.

Definition checkWtypeAvailable : sys.M (option error) :=
  let* found := sys.call (sys.LookPath "wtype") (fun w => sys.look_path w "wtype") in
  match found with
  | Some e => sys.ret (Some ("wtype not found: " +:+ e +:+ " (install wtype package)"))
  | None =>
      let* display := sys.call (sys.Getenv "WAYLAND_DISPLAY")
                               (fun w => sys.getenv w "WAYLAND_DISPLAY") in
      if String.eqb display "" then
        sys.ret (Some "WAYLAND_DISPLAY not set - wtype requires Wayland session")
      else
        let* runtime := sys.call (sys.Getenv "XDG_RUNTIME_DIR")
                                 (fun w => sys.getenv w "XDG_RUNTIME_DIR") in
        if String.eqb runtime "" then
          sys.ret (Some "XDG_RUNTIME_DIR not set - wtype requires proper session environment")
        else sys.ret None
  end.

(** The [select] between [time.After(delay)] and [ctx.Done()]: the error
    of the context when it ends before the delay has passed. *)
Definition done_before (ctx : sys.Context) (delay : Z) : option error :=
  match sys.ctx_err ctx with
  | Some e => Some e
  | None =>
      match sys.ctx_left ctx with
      | Some remaining => if remaining <? delay then Some "context deadline exceeded" else None
      | None => None
      end
  end.

Definition typeText (ctx : sys.Context) (text : string) (timeout delay : Z)
    : sys.M (option error) :=
  let ctx := sys.WithTimeout ctx timeout in
  let* unavailable := checkWtypeAvailable in
  match unavailable with
  | Some e => sys.ret (Some e)
  | None =>
      let type_it :=
        let* failed := sys.call (sys.Run ["wtype"; text])
                                (fun w => sys.run w ctx ["wtype"; text]) in
        match failed with
        | Some e => sys.ret (Some ("wtype failed: " +:+ e))
        | None => sys.ret None
        end in
      if 0 <? delay then
        match done_before ctx delay with
        | Some e => sys.ret (Some e)
        | None => do* sys.call (sys.Sleep delay) (fun _ => tt) in type_it
        end
      else type_it
  end.

(** The tail of [Inject] after the mode switch: restore the clipboard from
    a goroutine, 100 ms later, when configured and something was saved. *)
Definition restore_and_return (config : Config) (originalClipboard : string)
    : sys.M (option error) :=
  if RestoreClipboard config && negb (String.eqb originalClipboard "") then
    do* sys.call (sys.Go 100000000
                    (sys.SetClipboard originalClipboard (ClipboardTimeout config)))
                 (fun _ => tt) in
    sys.ret None
  else sys.ret None.

(** The [switch i.config.Mode] and what follows it. *)
Definition inject_by_mode (config : Config) (ctx : sys.Context) (text : string)
    (originalClipboard : string) : sys.M (option error) :=
  if String.eqb (Mode config) "clipboard" then sys.ret None
  else if String.eqb (Mode config) "type" then
    let* err := typeText ctx text (WtypeTimeout config) (WtypeDelay config) in
    match err with
    | Some e => sys.ret (Some ("failed to type text: " +:+ e))
    | None => restore_and_return config originalClipboard
    end
  else if String.eqb (Mode config) "fallback" then
    let* err := typeText ctx text (WtypeTimeout config) (WtypeDelay config) in
    match err with
    | Some _ => sys.ret None
    | None => restore_and_return config originalClipboard
    end
  else sys.ret (Some ("unsupported injection mode: " +:+ Mode config)).

Definition Inject (config : Config) (ctx : sys.Context) (text : string)
    : sys.M (option error) :=
  if String.eqb text "" then sys.ret (Some "cannot inject empty text")
  else if String.eqb (Mode config) "clipboard" || String.eqb (Mode config) "fallback"
  then
    let* unavailable := sys.call sys.CheckClipboardAvailable
                                 sys.checkClipboardAvailable in
    match unavailable with
    | Some e => sys.ret (Some ("clipboard tools not available: " +:+ e))
    | None =>
        let* originalClipboard :=
          if RestoreClipboard config then
            let* got := sys.call (sys.GetClipboard (ClipboardTimeout config))
                          (fun w => sys.getClipboard w ctx (ClipboardTimeout config)) in
            sys.ret (match got with Ok s => s | Err _ => "" end)
          else sys.ret "" in
        let* failed := sys.call (sys.SetClipboard text (ClipboardTimeout config))
                         (fun w => sys.setClipboard w ctx text (ClipboardTimeout config)) in
        match failed with
        | Some e => sys.ret (Some ("failed to copy text to clipboard: " +:+ e))
        | None => inject_by_mode config ctx text originalClipboard
        end
    end
  else inject_by_mode config ctx text "".

End injection.

(** ** Package injection: the clipboard and ydotool backends
  (internal/injection/typing.go) *)

Module backend.

(** What a backend does to the host, in program order. *)
Inductive Op :=
| LookPath (file : string)
| Getenv (name : string)
| Stat (path : string)
| Getuid
| Dial (path : string)
| Run (argv : list string) (stdin : string).

(** The answers of the host: whether [exec.LookPath] finds a program,
    the environment, whether [os.Stat] succeeds on a path, the user id,
    [filepath.Join], the outcome of dialling a unix socket and of running a
    command under a context. *)
Record Host := {
  look_path : string -> option error;
  getenv : string -> string;
  stat : string -> bool;
  getuid : Z;
  join : string -> string -> string;
  dial : string -> option error;
  run : sys.Context -> list string -> string -> option error
}.

Definition B (A : Type) : Type := Host -> A * list Op.

Definition ret {A} (a : A) : B A := fun _ => (a, []).

Definition bind {A B'} (m : B A) (k : A -> B B') : B B' :=
  fun h => let (a, t1) := m h in
           let (b, t2) := k a h in
           (b, t1 ++ t2).

Definition op {A} (o : Op) (answer : Host -> A) : B A :=
  fun h => (answer h, [o]).

Definition value {A} (m : B A) (h : Host) : A := fst (m h).
Definition ops {A} (m : B A) (h : Host) : list Op := snd (m h).

Notation "'let+' x ':=' m 'in' k" := (bind m (fun x => k))
  (at level 10, x name, m at level 100, k at level 200).

(** *** clipboardBackend *)

Definition clipboard_Name : string := "clipboard".

Definition clipboard_Available : B (option error) :=
  let+ found := op (LookPath "wl-copy") (fun h => look_path h "wl-copy") in
  match found with
  | Some e => ret (Some ("wl-copy not found: " +:+ e +:+ " (install wl-clipboard)"))
  | None =>
      let+ display := op (Getenv "WAYLAND_DISPLAY") (fun h => getenv h "WAYLAND_DISPLAY") in
      if String.eqb display "" then
        ret (Some "WAYLAND_DISPLAY not set - clipboard operations require Wayland session")
      else
        let+ runtime := op (Getenv "XDG_RUNTIME_DIR") (fun h => getenv h "XDG_RUNTIME_DIR") in
        if String.eqb runtime "" then
          ret (Some "XDG_RUNTIME_DIR not set - clipboard operations require proper session environment")
        else ret None
  end.

Definition clipboard_Inject (ctx : sys.Context) (text : string) (timeout : Z)
    : B (option error) :=
  let ctx := sys.WithTimeout ctx timeout in
  let+ unavailable := clipboard_Available in
  match unavailable with
  | Some e => ret (Some e)
  | None =>
      let+ failed := op (Run ["wl-copy"] text) (fun h => run h ctx ["wl-copy"] text) in
      match failed with
      | Some e => ret (Some ("wl-copy failed: " +:+ e))
      | None => ret None
      end
  end.

(** *** ydotoolBackend *)

Definition ydotool_Name : string := "ydotool".

(** The loop [for _, p := range paths]: the first path that exists. *)
Fixpoint first_existing (paths : list string) : B string :=
  match paths with
  | [] => ret ""
  | p :: more =>
      let+ exists_ := op (Stat p) (fun h => stat h p) in
      if exists_ then ret p else first_existing more
  end.

(** The common locations, after the optional one under the runtime
    directory. *)
Definition common_paths (uid : Z) : list string :=
  ["/run/user/" +:+ fmt_d uid +:+ "/.ydotool_socket"; "/tmp/.ydotool_socket"].

Definition search_paths : B string :=
  let+ uid := op Getuid getuid in
  let paths := common_paths uid in
  let+ xdg := op (Getenv "XDG_RUNTIME_DIR") (fun h => getenv h "XDG_RUNTIME_DIR") in
  let+ paths :=
    if negb (String.eqb xdg "")
    then fun h => (join h xdg ".ydotool_socket" :: paths, [])
    else ret paths in
  first_existing paths.

Definition getSocketPath : B string :=
  let+ sock := op (Getenv "YDOTOOL_SOCKET") (fun h => getenv h "YDOTOOL_SOCKET") in
  if negb (String.eqb sock "") then
    let+ exists_ := op (Stat sock) (fun h => stat h sock) in
    if exists_ then ret sock else search_paths
  else search_paths.

Definition ydotool_Available : B (option error) :=
  let+ found := op (LookPath "ydotool") (fun h => look_path h "ydotool") in
  match found with
  | Some e => ret (Some ("ydotool not found: " +:+ e +:+ " (install ydotool package)"))
  | None =>
      let+ socketPath := getSocketPath in
      if String.eqb socketPath "" then
        ret (Some "ydotoold socket not found - ensure ydotoold is running")
      else
        let+ refused := op (Dial socketPath) (fun h => dial h socketPath) in
        match refused with
        | Some e =>
            ret (Some ("ydotoold not responding at " +:+ socketPath +:+ ": " +:+ e))
        | None => ret None
        end
  end.

Definition ydotool_Inject (ctx : sys.Context) (text : string) (timeout : Z)
    : B (option error) :=
  let ctx := sys.WithTimeout ctx timeout in
  let+ unavailable := ydotool_Available in
  match unavailable with
  | Some e => ret (Some e)
  | None =>
      let argv := ["ydotool"; "type"; "--"; text] in
      let+ failed := op (Run argv "") (fun h => run h ctx argv "") in
      match failed with
      | Some e => ret (Some ("ydotool failed: " +:+ e))
      | None => ret None
      end
  end.

End backend.

(** ** Package pipeline

  The daemon drives the pipeline through its interface only. The
  implementation of the package is not among the sources; its test file
  fixes the names of the four statuses and of the single action. *)

Module pipeline.

Inductive Status := Idle | Recording | Transcribing | Injecting.

(** [type Status string]: the text behind each constant. *)
Definition Status_string (s : Status) : string :=
  match s with
  | Idle => "idle"
  | Recording => "recording"
  | Transcribing => "transcribing"
  | Injecting => "injecting"
  end.

Inductive Action := Inject.

(** Modelled from the spec: the pipeline object behind the [Pipeline]
    interface, whose implementation is missing. It is built from a
    configuration snapshot, has a status that can always be read, and an
    action channel; [p_running] holds from [Run] until the driver has torn
    down, [p_stopped] once [Stop] was called. [p_actionCh] lists the actions
    sent and not yet received by the driver, those of senders still waiting
    on the one-slot channel included. *)
Record Pipeline := {
  p_config : config.Config;
  p_status : Status;
  p_running : bool;
  p_stopped : bool;
  p_actionCh : list Action
}.

(** Modelled from the spec: [new(config_snapshot)], missing from the
    sources; a new pipeline is idle and owns no resources. *)
Definition New (conf : config.Config) : Pipeline :=
  {| p_config := conf; p_status := Idle; p_running := false;
     p_stopped := false; p_actionCh := [] |}.

(** Modelled from the spec: [run(context)], missing from the sources;
    it starts the driver task and does not block. *)
Definition Run (p : Pipeline) : Pipeline :=
  {| p_config := p_config p; p_status := p_status p; p_running := true;
     p_stopped := p_stopped p; p_actionCh := p_actionCh p |}.

(** Modelled from the spec: [stop()], missing from the sources; it
    requests teardown and is idempotent. *)
Definition Stop (p : Pipeline) : Pipeline :=
  {| p_config := p_config p; p_status := p_status p; p_running := p_running p;
     p_stopped := true; p_actionCh := p_actionCh p |}.

(** Modelled from the spec: [status()], missing from the sources. *)
Definition Status_ (p : Pipeline) : Status := p_status p.

(** Modelled from the spec: a send on [action_channel()], missing from
    the sources. *)
Definition send (p : Pipeline) (a : Action) : Pipeline :=
  {| p_config := p_config p; p_status := p_status p; p_running := p_running p;
     p_stopped := p_stopped p; p_actionCh := p_actionCh p ++ [a] |}.

Definition set_status (p : Pipeline) (s : Status) (running : bool)
    (ch : list Action) : Pipeline :=
  {| p_config := p_config p; p_status := s; p_running := running;
     p_stopped := p_stopped p; p_actionCh := ch |}.

(** Modelled from the spec: the driver task of the missing
    implementation, one transition at a time. The driver enters Recording,
    moves to Transcribing at the end of the audio stream, to Injecting once
    the Inject action is received, and tears down to Idle after the
    injection, on cancellation, on a fatal error or on an empty transcript. *)
Inductive drive : Pipeline -> Pipeline -> Prop :=
| enter_recording p :
    p_running p = true -> p_status p = Idle ->
    drive p (set_status p Recording true (p_actionCh p))
| end_of_audio p :
    p_running p = true -> p_status p = Recording ->
    drive p (set_status p Transcribing true (p_actionCh p))
| commit p rest :
    p_running p = true -> p_status p = Transcribing ->
    p_actionCh p = Inject :: rest ->
    drive p (set_status p Injecting true rest)
| teardown p :
    p_running p = true ->
    drive p (set_status p Idle false (p_actionCh p)).

End pipeline.

(** ** Package daemon *)

Module daemon.

(** [fmt]'s [%c] on a byte: the UTF-8 encoding of the code point. *)
Definition fmt_c (b : ascii) : string :=
  let n := N_of_ascii b in
  if (n <? 128)%N then String b ""
  else String (ascii_of_N (192 + n / 64)) (String (ascii_of_N (128 + n mod 64)) "").

Definition lowerhex (n : N) : ascii :=
  nth (N.to_nat n) (list_ascii_of_string "0123456789abcdef") "0"%char.

(** [strconv.IsPrint] on a code point below 256. *)
Definition IsPrint (n : N) : bool :=
  ((32 <=? n) && (n <=? 126) || (161 <=? n) && (n <=? 255) && negb (n =? 173))%N.

(** [fmt]'s [%q] on a byte: the single-quoted Go character literal. *)
Definition fmt_q (b : ascii) : string :=
  let n := N_of_ascii b in
  let hex2 := String (lowerhex (n / 16)) (String (lowerhex (n mod 16)) "") in
  let body :=
    if (n =? 39)%N || (n =? 92)%N then String "\"%char (String b "")
    else if IsPrint n then fmt_c b
    else if (n =? 7)%N then "\a"
    else if (n =? 8)%N then "\b"
    else if (n =? 12)%N then "\f"
    else if (n =? 10)%N then "\n"
    else if (n =? 13)%N then "\r"
    else if (n =? 9)%N then "\t"
    else if (n =? 11)%N then "\v"
    else if (n <? 32)%N || (n =? 127)%N then "\x" +:+ hex2
    else "\u00" +:+ hex2 in
  "'" +:+ body +:+ "'".

Definition newline : ascii := ascii_of_N 10.
Definition nl : string := String newline "".

(** What a client connection delivers: the bytes written by the peer, and
    the error the read ends with once they are used up ([io.EOF], whose
    text is EOF, when the peer has closed the connection). *)
Record Conn := {
  written : string;
  read_error : error
}.

(** The line up to and including the first newline, if there is one. *)
Fixpoint until_newline (data : string) : option string :=
  match data with
  | EmptyString => None
  | String c rest =>
      if Ascii.eqb c newline then Some (String c "")
      else option_map (String c) (until_newline rest)
  end.

(** [bufio.NewReader(c).ReadString] with the newline as delimiter: the
    data read so far comes with the error when the delimiter is missing. *)
Definition ReadString (c : Conn) : string * option error :=
  match until_newline (written c) with
  | Some line => (line, None)
  | None => (written c, Some (read_error c))
  end.

(** The daemon, the pipelines it has constructed, and what it has emitted.
    [d_pipeline] is a reference into [heap]; [monitored] are the pipelines
    an error-monitoring goroutine holds on to. *)
Record State := {
  d_notifier : notify.Notifier;
  d_config : config.Config;
  d_cancelled : bool;
  d_pipeline : option nat;
  d_wg : Z;
  heap : list pipeline.Pipeline;
  monitored : list nat;
  notified : list notify.Output;
  logged : list string
}.

Definition set_pipeline (st : State) (slot : option nat)
    (h : list pipeline.Pipeline) : State :=
  {| d_notifier := d_notifier st; d_config := d_config st;
     d_cancelled := d_cancelled st; d_pipeline := slot; d_wg := d_wg st;
     heap := h; monitored := monitored st; notified := notified st;
     logged := logged st |}.

Definition set_notifier (st : State) (n : notify.Notifier) : State :=
  {| d_notifier := n; d_config := d_config st;
     d_cancelled := d_cancelled st; d_pipeline := d_pipeline st;
     d_wg := d_wg st; heap := heap st; monitored := monitored st;
     notified := notified st; logged := logged st |}.

Definition set_config (st : State) (conf : config.Config) : State :=
  {| d_notifier := d_notifier st; d_config := conf;
     d_cancelled := d_cancelled st; d_pipeline := d_pipeline st;
     d_wg := d_wg st; heap := heap st; monitored := monitored st;
     notified := notified st; logged := logged st |}.

Definition cancel (st : State) : State :=
  {| d_notifier := d_notifier st; d_config := d_config st;
     d_cancelled := true; d_pipeline := d_pipeline st;
     d_wg := d_wg st; heap := heap st; monitored := monitored st;
     notified := notified st; logged := logged st |}.

Definition wg_add (st : State) (delta : Z) : State :=
  {| d_notifier := d_notifier st; d_config := d_config st;
     d_cancelled := d_cancelled st; d_pipeline := d_pipeline st;
     d_wg := d_wg st + delta; heap := heap st; monitored := monitored st;
     notified := notified st; logged := logged st |}.

Definition monitor (st : State) (r : nat) : State :=
  {| d_notifier := d_notifier st; d_config := d_config st;
     d_cancelled := d_cancelled st; d_pipeline := d_pipeline st;
     d_wg := d_wg st; heap := heap st; monitored := monitored st ++ [r];
     notified := notified st; logged := logged st |}.

Definition log (st : State) (line : string) : State :=
  {| d_notifier := d_notifier st; d_config := d_config st;
     d_cancelled := d_cancelled st; d_pipeline := d_pipeline st;
     d_wg := d_wg st; heap := heap st; monitored := monitored st;
     notified := notified st; logged := logged st ++ [line] |}.

(** [d.notifier.Send(mt)], from a goroutine or not. *)
Definition Send (st : State) (mt : notify.MessageType) : State :=
  {| d_notifier := d_notifier st; d_config := d_config st;
     d_cancelled := d_cancelled st; d_pipeline := d_pipeline st;
     d_wg := d_wg st; heap := heap st; monitored := monitored st;
     notified := notified st ++ notify.Send (d_notifier st) mt;
     logged := logged st |}.

(** [New], once the config manager has produced its snapshot. *)
Definition New (conf : config.Config) : State :=
  {| d_notifier :=
       notify.NewNotifier (config.Type_ (config.Notifications conf))
         (config.Resolve (config.Messages (config.Notifications conf)));
     d_config := conf; d_cancelled := false; d_pipeline := None;
     d_wg := 0; heap := []; monitored := []; notified := []; logged := [] |}.

(** [d.status()]. A reference always points into the heap. *)
Definition status (st : State) : pipeline.Status :=
  match d_pipeline st with
  | None => pipeline.Idle
  | Some r =>
      match heap st !! r with
      | Some p => pipeline.Status_ p
      | None => pipeline.Idle
      end
  end.

Definition stopPipeline (st : State) : State :=
  match d_pipeline st with
  | None => set_pipeline st None (heap st)
  | Some r =>
      set_pipeline st None
        (match heap st !! r with
         | Some p => <[r := pipeline.Stop p]> (heap st)
         | None => heap st
         end)
  end.

Definition onConfigReload (st : State) : State :=
  let st := log st "Config reloaded, restarting pipeline" in
  let st := stopPipeline st in
  let conf := d_config st in
  let st := set_notifier st
              (notify.NewNotifier (config.Type_ (config.Notifications conf))
                 (config.Resolve (config.Messages (config.Notifications conf)))) in
  Send st notify.MsgConfigReloaded.

Definition toggle (st : State) : State :=
  let conf := d_config st in
  match status st with
  | pipeline.Idle =>
      let p := pipeline.Run (pipeline.New conf) in
      let r := length (heap st) in
      let st := set_pipeline st (Some r) (heap st ++ [p]) in
      let st := Send st notify.MsgRecordingStarted in
      monitor st r
  | pipeline.Recording =>
      let st := stopPipeline st in
      Send st notify.MsgRecordingAborted
  | pipeline.Transcribing =>
      let st :=
        match d_pipeline st with
        | Some r =>
            let st := log st "Daemon: Sending inject action to pipeline" in
            match heap st !! r with
            | Some p =>
                set_pipeline st (Some r)
                  (<[r := pipeline.send p pipeline.Inject]> (heap st))
            | None => st
            end
        | None => st
        end in
      Send st notify.MsgTranscribing
  | pipeline.Injecting =>
      let st := stopPipeline st in
      Send st notify.MsgInjectionAborted
  end.

Definition cancelPipeline (st : State) : State :=
  match status st with
  | pipeline.Idle =>
      log st "Daemon: Cancel requested but pipeline is idle, ignoring"
  | _ =>
      let st := stopPipeline st in
      Send st notify.MsgOperationCancelled
  end.

Section Handle.

(** [bus.ProtoVer], a constant of the bus package. *)
Variable ProtoVer : string.

(** [handle]: the reply written to the connection and the state left
    behind. The deferred [d.wg.Done()] runs on every path. *)
Definition handle (c : Conn) (st : State) : string * State :=
  let (reply, st) :=
    match ReadString c with
    | (_, Some err) =>
        ("ERR read_error: " +:+ err +:+ nl,
         log st ("Client read error: " +:+ err))
    | (line, None) =>
        match line with
        | EmptyString => ("ERR empty" +:+ nl, st)
        | String cmd _ =>
            if Ascii.eqb cmd "t" then ("OK toggled" +:+ nl, toggle st)
            else if Ascii.eqb cmd "c" then
              ("OK cancelled" +:+ nl, cancelPipeline st)
            else if Ascii.eqb cmd "s" then
              ("STATUS status=" +:+ pipeline.Status_string (status st) +:+ nl, st)
            else if Ascii.eqb cmd "v" then
              ("STATUS proto=" +:+ ProtoVer +:+ nl, st)
            else if Ascii.eqb cmd "q" then ("OK quitting" +:+ nl, cancel st)
            else ("ERR unknown=" +:+ fmt_q cmd +:+ nl,
                  log st ("Unknown command: " +:+ fmt_c cmd))
        end
    end in
  (reply, wg_add st (-1)).

(** What can happen to a running daemon: [Run] accepts a connection
    and hands it to [handle]; the config manager installs a new snapshot
    and calls back; the driver of some pipeline makes a transition. *)
Inductive step : State -> State -> Prop :=
| step_handle st c :
    step st (snd (handle c (wg_add st 1)))
| step_reload st conf :
    step st (onConfigReload (set_config st conf))
| step_drive st r p p' :
    heap st !! r = Some p -> pipeline.drive p p' ->
    step st (set_pipeline st (d_pipeline st) (<[r := p']> (heap st))).

Inductive reachable : State -> Prop :=
| reachable_New conf : reachable (New conf)
| reachable_step st st' : reachable st -> step st st' -> reachable st'.

End Handle.

End daemon.

(** ** Package main: the command-line client *)

Module cli.

Inductive Subcommand :=
| serve | toggle | cancel | status | version | stop | configure.

(** What the client depends on outside this file: [bus.SendCommand] (the
    bus package is not among the sources), the outcome of running the
    daemon and of the interactive wizard, and the usage text that the
    command-line library prints after an error. *)
Record Env := {
  SendCommand : ascii -> result string;
  daemon_New : option error;
  daemon_Run : option error;
  runInteractiveConfig : option error;
  usage : Subcommand -> string
}.

(** A [RunE] function: what it prints on standard output and the error
    it returns. *)
Definition send_and_print (env : Env) (cmd : ascii) (what : string)
    : string * option error :=
  match SendCommand env cmd with
  | Err e => ("", Some ("failed to " +:+ what +:+ ": " +:+ e))
  | Ok resp => (resp, None)
  end.

Definition RunE (env : Env) (c : Subcommand) : string * option error :=
  match c with
  | serve =>
      match daemon_New env with
      | Some e => ("", Some ("failed to create daemon: " +:+ e))
      | None => ("", daemon_Run env)
      end
  | toggle => send_and_print env "t" "toggle recording"
  | status => send_and_print env "s" "get status"
  | version => send_and_print env "v" "get version"
  | stop => send_and_print env "q" "stop daemon"
  | cancel => send_and_print env "c" "cancel operation"
  | configure => ("", runInteractiveConfig env)
  end.

Record Process := {
  stdout : string;
  stderr : string;
  returned : option error;
  exit_code : Z
}.

(** [rootCmd.Execute()]: run the subcommand; when it fails, print the
    error and the usage on standard error and return the error. *)
Definition Execute (env : Env) (c : Subcommand)
    : string * string * option error :=
  match RunE env c with
  | (out, Some e) =>
      (out, "Error: " +:+ e +:+ daemon.nl +:+ usage env c, Some e)
  | (out, None) => (out, "", None)
  end.

(** [main] discards what [Execute] returns and falls off its end, which
    ends the process with status 0. *)
Definition main (env : Env) (c : Subcommand) : Process :=
  match Execute env c with
  | (out, err_out, e) =>
      {| stdout := out; stderr := err_out; returned := e; exit_code := 0 |}
  end.

(** *** Helpers of the configuration wizard *)

(** [key[:4]] and [key[len(key)-4:]] are byte slices. *)
Definition maskAPIKey (key : string) : string :=
  if String.eqb key "" then "<not set>"
  else if (String.length key <=? 8)%nat then "****"
  else String.substring 0 4 key +:+ "****"
       +:+ String.substring (String.length key - 4) 4 key.

Definition hasCustomMessages (msgs : config.MessagesConfig) : bool :=
  negb (String.eqb (config.Title (config.RecordingStarted msgs)) "")
  || negb (String.eqb (config.Body (config.RecordingStarted msgs)) "")
  || negb (String.eqb (config.Title (config.Transcribing msgs)) "")
  || negb (String.eqb (config.Body (config.Transcribing msgs)) "")
  || negb (String.eqb (config.Title (config.ConfigReloaded msgs)) "")
  || negb (String.eqb (config.Body (config.ConfigReloaded msgs)) "")
  || negb (String.eqb (config.Title (config.OperationCancelled msgs)) "")
  || negb (String.eqb (config.Body (config.OperationCancelled msgs)) "")
  || negb (String.eqb (config.Body (config.RecordingAborted msgs)) "")
  || negb (String.eqb (config.Body (config.InjectionAborted msgs)) "").

End cli.

(** * Definitions used by the statements *)

Module examples.

(** The daemon test configuration, with the provider of the transcriber
    test case "valid mistral-transcription config". *)
Definition mistral_Config : config.Config :=
  {| config.Recording :=
       {| config.SampleRate := 16000; config.Channels := 1;
          config.Format := "s16"; config.BufferSize := 8192;
          config.Device := ""; config.ChannelBufferSize := 30;
          config.Timeout := 5 * config.Minute |};
     config.Transcription :=
       {| config.Provider := "mistral-transcription";
          config.APIKey := "test-key"; config.Language := "de";
          config.Model := "voxtral-mini-latest"; config.ServerURL := "" |};
     config.Injection :=
       {| config.Backends := ["ydotool"; "wtype"; "clipboard"];
          config.YdotoolTimeout := 5 * config.Second;
          config.WtypeTimeout := 5 * config.Second;
          config.WtypeDelay := 0;
          config.ClipboardTimeout := 3 * config.Second |};
     config.Notifications :=
       {| config.Enabled := true; config.Type_ := "log";
          config.Messages := config.Messages (config.Notifications config.zero_Config) |} |}.

(** The same configuration for another provider. *)
Definition with_provider (provider model url : string) : config.Config :=
  {| config.Recording := config.Recording mistral_Config;
     config.Transcription :=
       {| config.Provider := provider; config.APIKey := "test-key";
          config.Language := "de"; config.Model := model;
          config.ServerURL := url |};
     config.Injection := config.Injection mistral_Config;
     config.Notifications := config.Notifications mistral_Config |}.

(** A world in which every helper succeeds and the transcription server
    answers with the given status code and body. *)
Definition server_answers (code : Z) (body : string) : sys.World :=
  {| sys.convertToWAV := fun pcm => Ok ("RIFF" +:+ pcm);
     sys.new_request := fun _ => None;
     sys.http_do := fun _ => Ok {| sys.StatusCode := code; sys.Body := body |};
     sys.json_text := fun _ => Ok "hello world";
     sys.create_transcription := fun _ _ => Ok "hello world";
     sys.look_path := fun _ => None;
     sys.getenv := fun _ => "1";
     sys.run := fun _ _ => None;
     sys.checkClipboardAvailable := None;
     sys.getClipboard := fun _ _ => Ok "previous";
     sys.setClipboard := fun _ _ _ => None |}.

Definition whisper_Config : transcriber.Config :=
  {| transcriber.Provider := "whisper-cpp"; transcriber.APIKey := "";
     transcriber.Language := "en"; transcriber.Model := "";
     transcriber.ServerURL := "http://127.0.0.1:8025/inference" |}.

(** A client environment in which no daemon listens on the socket. *)
Definition daemon_down : cli.Env :=
  {| cli.SendCommand := fun _ => Err "failed to connect to daemon: connection refused";
     cli.daemon_New := None;
     cli.daemon_Run := None;
     cli.runInteractiveConfig := None;
     cli.usage := fun _ => "Usage:" |}.

(** A client environment in which the daemon answers every command with
    the given line. *)
Definition daemon_replies (line : string) : cli.Env :=
  {| cli.SendCommand := fun _ => Ok line;
     cli.daemon_New := None;
     cli.daemon_Run := None;
     cli.runInteractiveConfig := None;
     cli.usage := fun _ => "Usage:" |}.

(** A connection on which the peer wrote [data] and then closed. *)
Definition closed_after (data : string) : daemon.Conn :=
  {| daemon.written := data; daemon.read_error := "EOF" |}.

(** The keys of the legacy configuration file of the loader's migration
    tests, apart from the injection mode or backends. *)
Definition legacy_base : config.Config :=
  {| config.Recording :=
       {| config.SampleRate := 16000; config.Channels := 1;
          config.Format := "s16"; config.BufferSize := 8192;
          config.Device := ""; config.ChannelBufferSize := 30;
          config.Timeout := 5 * config.Minute |};
     config.Transcription :=
       {| config.Provider := "openai"; config.APIKey := "test-key";
          config.Language := ""; config.Model := "whisper-1";
          config.ServerURL := "" |};
     config.Injection :=
       {| config.Backends := [];
          config.YdotoolTimeout := 0;
          config.WtypeTimeout := 5 * config.Second;
          config.WtypeDelay := 0;
          config.ClipboardTimeout := 3 * config.Second |};
     config.Notifications :=
       {| config.Enabled := true; config.Type_ := "log";
          config.Messages := config.Messages (config.Notifications config.zero_Config) |} |}.

(** A file system with a usable configuration directory and no file yet. *)
Definition home : config.FileSystem :=
  {| config.UserConfigDir := Ok "/home/user/.config";
     config.MkdirAll := None;
     config.files := ∅;
     config.Create := None;
     config.WriteString := None |}.

Definition home_path : string := "/home/user/.config/hyprvoice/config.toml".

(** The daemon handling a toggle request. *)
Definition after_toggle (st : daemon.State) : daemon.State :=
  snd (daemon.handle "1" (closed_after ("t" +:+ daemon.nl)) (daemon.wg_add st 1)).

(** The driver of the pipeline at address [r] moving it on. *)
Definition driven (st : daemon.State) (r : nat)
    (f : pipeline.Pipeline -> pipeline.Pipeline) : daemon.State :=
  match daemon.heap st !! r with
  | Some p =>
      daemon.set_pipeline st (daemon.d_pipeline st) (<[r := f p]> (daemon.heap st))
  | None => st
  end.

(** One complete session: toggle, recording, end of audio, toggle,
    injection, teardown. The first pipeline is idle again and still in the
    daemon's slot. *)
Definition session_started : daemon.State :=
  after_toggle (daemon.New config.default_Config).
Definition session_recording : daemon.State :=
  driven session_started 0
    (fun p => pipeline.set_status p pipeline.Recording true (pipeline.p_actionCh p)).
Definition session_transcribing : daemon.State :=
  driven session_recording 0
    (fun p => pipeline.set_status p pipeline.Transcribing true (pipeline.p_actionCh p)).
Definition session_committed : daemon.State :=
  after_toggle session_transcribing.
Definition session_injecting : daemon.State :=
  driven session_committed 0
    (fun p => pipeline.set_status p pipeline.Injecting true []).
Definition session_over : daemon.State :=
  driven session_injecting 0
    (fun p => pipeline.set_status p pipeline.Idle false (pipeline.p_actionCh p)).

End examples.

(** Definitions that follow the words of the specification, to be compared
  with the code. *)

Module spec.

(** The override a user configured for a message type: the entry of
    [notifications.messages] named after that type. *)
Definition configured (m : config.MessagesConfig) (mt : notify.MessageType)
    : config.MessageConfig :=
  if mt =? notify.MsgRecordingStarted then config.RecordingStarted m
  else if mt =? notify.MsgTranscribing then config.Transcribing m
  else if mt =? notify.MsgConfigReloaded then config.ConfigReloaded m
  else if mt =? notify.MsgOperationCancelled then config.OperationCancelled m
  else if mt =? notify.MsgRecordingAborted then config.RecordingAborted m
  else config.InjectionAborted m.

(** The configured value when it is a non-empty string, the default
    otherwise. *)
Definition or_default (user dflt : string) : string :=
  if String.eqb user "" then dflt else user.

(** The entry the specification expects for a message definition. *)
Definition resolved (m : config.MessagesConfig) (def : notify.MessageDef)
    : notify.Message :=
  {| notify.Title := or_default (config.Title (configured m (notify.Type_ def)))
                                (notify.DefaultTitle def);
     notify.Body := or_default (config.Body (configured m (notify.Type_ def)))
                               (notify.DefaultBody def);
     notify.MsgIsError := notify.IsError def |}.

(** [contains piece text]: [piece] occurs in [text]. *)
Fixpoint contains (piece text : string) : bool :=
  String.prefix piece text
  || match text with
     | EmptyString => false
     | String _ rest => contains piece rest
     end.

(** An error text reports a truncated copy of a response body when it
    contains the first [n] bytes of the body, for some limit [n > 0]. *)
Definition reports_truncated_body (err body : string) : Prop :=
  exists n, (0 < n)%nat /\ contains (String.substring 0 n body) err = true.

(** The byte a control-bus client subcommand sends. *)
Definition client_byte (c : cli.Subcommand) : option ascii :=
  match c with
  | cli.toggle => Some "t"%char
  | cli.cancel => Some "c"%char
  | cli.status => Some "s"%char
  | cli.version => Some "v"%char
  | cli.stop => Some "q"%char
  | cli.serve | cli.configure => None
  end.

(** The command bytes of the wire protocol. *)
Definition known_bytes : list ascii :=
  ["t"%char; "c"%char; "s"%char; "v"%char; "q"%char].

(** The legacy injection modes and their migrated backend lists:
    clipboard to [clipboard], type to [wtype], fallback to
    [wtype, clipboard]. *)
Inductive LegacyMode := mode_clipboard | mode_type | mode_fallback.

Definition mode_key (m : LegacyMode) : string :=
  match m with
  | mode_clipboard => "clipboard"
  | mode_type => "type"
  | mode_fallback => "fallback"
  end.

Definition migrated_backends (m : LegacyMode) : list string :=
  match m with
  | mode_clipboard => ["clipboard"]
  | mode_type => ["wtype"]
  | mode_fallback => ["wtype"; "clipboard"]
  end.

(** A configuration file that uses [injection.mode] and has no
    [injection.backends]; [base] gives its other keys. *)
Definition legacy_file (base : config.Config) (m : LegacyMode)
    : config.TomlFile :=
  {| config.decode_Config := Ok (config.set_Backends base []);
     config.decode_legacy_mode := mode_key m |}.

(** The same file written in the migrated form: [injection.mode] is
    replaced by the [injection.backends] list it migrates to. *)
Definition new_form_file (base : config.Config) (m : LegacyMode)
    : config.TomlFile :=
  {| config.decode_Config := Ok (config.set_Backends base (migrated_backends m));
     config.decode_legacy_mode := "" |}.

(** The daemon's slot refers to a pipeline that was constructed. *)
Definition slot_in_heap (st : daemon.State) : Prop :=
  match daemon.d_pipeline st with
  | None => True
  | Some r => (r < length (daemon.heap st))%nat
  end.

(** Going from [st] to [st'] installs a new pipeline: the slot refers to
    a pipeline that did not exist in [st]. *)
Definition installs_new (st st' : daemon.State) : Prop :=
  exists r, daemon.d_pipeline st' = Some r /\ (length (daemon.heap st) <= r)%nat.

(** Before a pipeline was installed the slot was nil, or it was cleared:
    the pipeline it held went through [stopPipeline], which stops it. *)
Definition nil_or_cleared (st st' : daemon.State) : Prop :=
  daemon.d_pipeline st = None
  \/ exists r p, daemon.d_pipeline st = Some r
                 /\ daemon.heap st' !! r = Some p
                 /\ pipeline.p_stopped p = true.

(** No pipeline is constructed, and the slot is kept or cleared. *)
Definition constructs_none (st st' : daemon.State) : Prop :=
  length (daemon.heap st') = length (daemon.heap st)
  /\ (daemon.d_pipeline st' = daemon.d_pipeline st
      \/ daemon.d_pipeline st' = None).

(** Exactly one pipeline is constructed from the current snapshot,
    started, and put in the slot. *)
Definition constructs_one (st st' : daemon.State) : Prop :=
  daemon.heap st'
    = daemon.heap st ++ [pipeline.Run (pipeline.New (daemon.d_config st))]
  /\ daemon.d_pipeline st' = Some (length (daemon.heap st)).

End spec.

(** Definitions used to state further properties of the code. *)

Module obs.

(** The configurations [Validate] is meant to accept, spelled out. The
    credential of a hosted provider may come from the file or from the
    environment variable of its family. *)
Definition has_key (env : gmap string string) (t : config.TranscriptionConfig)
    (name : string) : Prop :=
  config.APIKey t <> "" \/ config.Getenv env name <> "".

Definition provider_ok (env : gmap string string)
    (t : config.TranscriptionConfig) : Prop :=
  (config.Provider t = "openai" /\ has_key env t "OPENAI_API_KEY"
     /\ config.Model t <> "")
  \/ (config.Provider t = "groq-transcription" /\ has_key env t "GROQ_API_KEY"
     /\ In (config.Model t) ["whisper-large-v3"; "whisper-large-v3-turbo"])
  \/ (config.Provider t = "groq-translation" /\ has_key env t "GROQ_API_KEY"
     /\ config.Model t = "whisper-large-v3")
  \/ (config.Provider t = "mistral-transcription" /\ has_key env t "MISTRAL_API_KEY"
     /\ In (config.Model t) ["voxtral-mini-latest"; "voxtral-mini-2507"])
  \/ (config.Provider t = "whisper-cpp" /\ config.ServerURL t <> "").

Definition well_formed (env : gmap string string) (c : config.Config) : Prop :=
  let r := config.Recording c in
  let t := config.Transcription c in
  let i := config.Injection c in
  0 < config.SampleRate r /\ 0 < config.Channels r /\ 0 < config.BufferSize r
  /\ 0 < config.ChannelBufferSize r /\ config.Format r <> ""
  /\ 0 < config.Timeout r
  /\ (config.Language t = "" \/ config.isValidLanguageCode (config.Language t) = true)
  /\ provider_ok env t
  /\ config.Backends i <> []
  /\ Forall (fun b => In b ["ydotool"; "wtype"; "clipboard"]) (config.Backends i)
  /\ 0 < config.YdotoolTimeout i /\ 0 < config.WtypeTimeout i
  /\ 0 < config.ClipboardTimeout i
  /\ In (config.Type_ (config.Notifications c)) ["desktop"; "log"; "none"].

(** A lowercase ASCII letter. *)
Definition lower (a : ascii) : bool :=
  ((97 <=? N_of_ascii a) && (N_of_ascii a <=? 122))%N.

(** Exactly two lowercase ASCII letters. *)
Definition two_lower (code : string) : bool :=
  match code with
  | String a (String b EmptyString) => lower a && lower b
  | _ => false
  end.

(** The backend lists [migrateInjectionMode] can install. *)
Definition migration_targets : list (list string) :=
  [["clipboard"]; ["wtype"]; ["wtype"; "clipboard"];
   ["ydotool"; "wtype"; "clipboard"]].

(** What the factory needs of a transcriber configuration. *)
Definition factory_accepts (cfg : transcriber.Config) : Prop :=
  (In (transcriber.Provider cfg) ["openai"; "groq-transcription"; "groq-translation"]
   /\ transcriber.APIKey cfg <> "")
  \/ (transcriber.Provider cfg = "whisper-cpp" /\ transcriber.ServerURL cfg <> "").

(** Classes of calls. *)
Definition is_http (c : sys.Call) : bool :=
  match c with
  | sys.HttpDo _ | sys.CreateTranscription _ _ => true
  | _ => false
  end.

Definition is_clipboard (c : sys.Call) : bool :=
  match c with
  | sys.CheckClipboardAvailable | sys.GetClipboard _ | sys.SetClipboard _ _
  | sys.Go _ _ => true
  | _ => false
  end.

Definition is_typing (c : sys.Call) : bool :=
  match c with
  | sys.LookPath _ | sys.Getenv _ | sys.Sleep _ | sys.Run _ => true
  | _ => false
  end.

Definition is_run (c : sys.Call) : bool :=
  match c with
  | sys.Run _ => true
  | _ => false
  end.

Definition is_go (c : sys.Call) : bool :=
  match c with
  | sys.Go _ _ => true
  | _ => false
  end.

(** The wtype tool can be used: it is on the path and the session
    variables are set. *)
Definition wtype_available (w : sys.World) : Prop :=
  sys.look_path w "wtype" = None
  /\ sys.getenv w "WAYLAND_DISPLAY" <> ""
  /\ sys.getenv w "XDG_RUNTIME_DIR" <> "".

(** Injector configurations for the given mode. *)
Definition injector_Config (mode : string) (restore : bool) : injection.Config :=
  {| injection.Mode := mode; injection.RestoreClipboard := restore;
     injection.WtypeTimeout := 5 * config.Second; injection.WtypeDelay := 0;
     injection.ClipboardTimeout := 3 * config.Second |}.

(** A world like [examples.server_answers] in which wtype is missing. *)
Definition without_wtype : sys.World :=
  let w := examples.server_answers 200 "" in
  {| sys.convertToWAV := sys.convertToWAV w;
     sys.new_request := sys.new_request w;
     sys.http_do := sys.http_do w;
     sys.json_text := sys.json_text w;
     sys.create_transcription := sys.create_transcription w;
     sys.look_path := fun _ => Some "executable file not found in $PATH";
     sys.getenv := sys.getenv w;
     sys.run := sys.run w;
     sys.checkClipboardAvailable := sys.checkClipboardAvailable w;
     sys.getClipboard := sys.getClipboard w;
     sys.setClipboard := sys.setClipboard w |}.

(** The socket paths [getSocketPath] considers, in order of priority: the
    one named by YDOTOOL_SOCKET, the one under XDG_RUNTIME_DIR, the one under
    /run/user/<uid>, the one under /tmp. *)
Definition socket_candidates (h : backend.Host) : list string :=
  (if String.eqb (backend.getenv h "YDOTOOL_SOCKET") "" then []
   else [backend.getenv h "YDOTOOL_SOCKET"])
  ++ (if String.eqb (backend.getenv h "XDG_RUNTIME_DIR") "" then []
      else [backend.join h (backend.getenv h "XDG_RUNTIME_DIR") ".ydotool_socket"])
  ++ backend.common_paths (backend.getuid h).

Definition is_backend_run (o : backend.Op) : bool :=
  match o with
  | backend.Run _ _ => true
  | _ => false
  end.

(** A host with a Wayland session, wl-copy and ydotool installed, and the
    ydotool daemon listening on the socket under the runtime directory. *)
Definition wayland_host : backend.Host :=
  {| backend.look_path := fun _ => None;
     backend.getenv := fun name =>
       if String.eqb name "WAYLAND_DISPLAY" then "wayland-1"
       else if String.eqb name "XDG_RUNTIME_DIR" then "/run/user/1000"
       else "";
     backend.stat := fun path => String.eqb path "/run/user/1000/.ydotool_socket";
     backend.getuid := 1000;
     backend.join := fun dir name => dir +:+ "/" +:+ name;
     backend.dial := fun _ => None;
     backend.run := fun _ _ _ => None |}.

(** What a notifier of the given kind shows for a resolved message: an
    error message goes out with critical urgency under a fixed title. *)
Definition shown (desktop : bool) (msg : notify.Message) : notify.Output :=
  if desktop then
    if notify.MsgIsError msg
    then notify.NotifySend true "Hyprvoice Error" (notify.Body msg)
    else notify.NotifySend false (notify.Title msg) (notify.Body msg)
  else
    if notify.MsgIsError msg
    then notify.LogLine ("Hyprvoice Error: " +:+ notify.Body msg)
    else notify.LogLine (notify.Title msg +:+ ": " +:+ notify.Body msg).

(** The same configuration with another value of [notifications.enabled]. *)
Definition set_Enabled (c : config.Config) (enabled : bool) : config.Config :=
  {| config.Recording := config.Recording c;
     config.Transcription := config.Transcription c;
     config.Injection := config.Injection c;
     config.Notifications :=
       {| config.Enabled := enabled;
          config.Type_ := config.Type_ (config.Notifications c);
          config.Messages := config.Messages (config.Notifications c) |} |}.

(** The invariant of the daemon's slot: the pipeline it refers to exists
    and has not been stopped. *)
Definition slot_live (st : daemon.State) : Prop :=
  match daemon.d_pipeline st with
  | None => True
  | Some r =>
      exists p, daemon.heap st !! r = Some p /\ pipeline.p_stopped p = false
  end.

(** The request that consists of the command byte alone. *)
Definition just (c : daemon.Conn) (cmd : ascii) : daemon.Conn :=
  {| daemon.written := String cmd daemon.nl;
     daemon.read_error := daemon.read_error c |}.

Definition zero_messages : config.MessagesConfig :=
  config.Messages (config.Notifications config.zero_Config).

End obs.

(** * Properties *)

(** ** The transcriber factory against [Validate] *)

Lemma reject_if_None b e rest :
  config.reject_if b e rest = None -> b = false /\ rest = None.
Proof. destruct b; simpl; [discriminate | auto]. Qed.

Lemma language_check_None t rest :
  config.language_check t rest = None -> rest = None.
Proof. intros H. apply reject_if_None in H. tauto. Qed.

Lemma backends_check_None backends rest :
  config.backends_check backends rest = None -> rest = None.
Proof.
  induction backends as [|b more IH]; simpl; [auto |].
  intros H. apply reject_if_None in H as [_ H]. auto.
Qed.

(** Whatever [Validate] accepts has one of the five provider tags, and the
    credential or URL of that provider is present. *)
Lemma provider_check_None env t rest :
  config.provider_check env t rest = None ->
  (config.Provider t = "openai"
     /\ config.key_or_env env t "OPENAI_API_KEY" <> "")
  \/ (config.Provider t = "groq-transcription"
     /\ config.key_or_env env t "GROQ_API_KEY" <> "")
  \/ (config.Provider t = "groq-translation"
     /\ config.key_or_env env t "GROQ_API_KEY" <> "")
  \/ (config.Provider t = "mistral-transcription"
     /\ config.key_or_env env t "MISTRAL_API_KEY" <> "")
  \/ (config.Provider t = "whisper-cpp" /\ config.ServerURL t <> "").
Proof.
  unfold config.provider_check.
  destruct (String.eqb_spec (config.Provider t) "openai") as [-> | _].
  { intros H. apply reject_if_None in H as [H _].
    left. split; [reflexivity |]. intros E. rewrite E in H. discriminate. }
  destruct (String.eqb_spec (config.Provider t) "groq-transcription") as [-> | _].
  { intros H. apply reject_if_None in H as [H _].
    right; left. split; [reflexivity |]. intros E. rewrite E in H. discriminate. }
  destruct (String.eqb_spec (config.Provider t) "groq-translation") as [-> | _].
  { intros H. apply reject_if_None in H as [H _].
    do 2 right; left. split; [reflexivity |]. intros E. rewrite E in H. discriminate. }
  destruct (String.eqb_spec (config.Provider t) "mistral-transcription") as [-> | _].
  { intros H. apply reject_if_None in H as [H _].
    do 3 right; left. split; [reflexivity |]. intros E. rewrite E in H. discriminate. }
  destruct (String.eqb_spec (config.Provider t) "whisper-cpp") as [-> | _].
  { intros H. apply reject_if_None in H as [H _].
    do 4 right. split; [reflexivity |]. intros E. rewrite E in H. discriminate. }
  discriminate.
Qed.

Lemma Validate_provider env c :
  config.Validate env c = None ->
  let t := config.Transcription c in
  (config.Provider t = "openai"
     /\ config.key_or_env env t "OPENAI_API_KEY" <> "")
  \/ (config.Provider t = "groq-transcription"
     /\ config.key_or_env env t "GROQ_API_KEY" <> "")
  \/ (config.Provider t = "groq-translation"
     /\ config.key_or_env env t "GROQ_API_KEY" <> "")
  \/ (config.Provider t = "mistral-transcription"
     /\ config.key_or_env env t "MISTRAL_API_KEY" <> "")
  \/ (config.Provider t = "whisper-cpp" /\ config.ServerURL t <> "").
Proof.
  unfold config.Validate. intros H.
  do 7 (apply reject_if_None in H as [_ H]).
  exact (provider_check_None _ _ _ H).
Qed.

(** Case analysis on a test [x == ""] in the goal. *)
Ltac empty_or_not :=
  match goal with
  | |- context [String.eqb ?x ""] =>
      destruct (String.eqb_spec x "");
      [try contradiction; try congruence | try reflexivity]
  end.

(** For the four providers the factory knows, a validated snapshot always
    yields a transcriber. *)
Lemma NewTranscriber_after_Validate env c :
  config.Validate env c = None ->
  config.Provider (config.Transcription c) <> "mistral-transcription" ->
  is_ok (transcriber.NewTranscriber (config.ToTranscriberConfig env c)) = true.
Proof.
  intros V Hm. apply Validate_provider in V. simpl in V.
  unfold transcriber.NewTranscriber, config.ToTranscriberConfig.
  unfold config.key_or_env in V. simpl.
  destruct V as [[P K] | [[P K] | [[P K] | [[P K] | [P K]]]]];
    try contradiction; rewrite P in *; simpl; repeat empty_or_not.
Qed.

(** C1. A configuration snapshot with [transcription.provider] set to
    mistral-transcription and a non-empty API key passes [Validate], and the
    transcriber test table expects [NewTranscriber] to accept its transcriber
    view; yet [NewTranscriber] has no case for that provider and returns the
    error "unsupported provider: mistral-transcription". *)
Theorem C1_mistral_validates_but_NewTranscriber_fails :
  config.Validate ∅ examples.mistral_Config = None
  /\ config.ToTranscriberConfig ∅ examples.mistral_Config
     = {| transcriber.Provider := "mistral-transcription";
          transcriber.APIKey := "test-key";
          transcriber.Language := "de";
          transcriber.Model := "voxtral-mini-latest";
          transcriber.ServerURL := "" |}
  /\ transcriber.NewTranscriber
       (config.ToTranscriberConfig ∅ examples.mistral_Config)
     = Err "unsupported provider: mistral-transcription".
Proof. repeat split; vm_compute; reflexivity. Qed.

(** The sibling providers on the same snapshot: each passes [Validate] and
    each gets its transcriber. *)
Example siblings_of_mistral_succeed :
  Forall (fun c => config.Validate ∅ c = None
                   /\ is_ok (transcriber.NewTranscriber
                               (config.ToTranscriberConfig ∅ c)) = true)
    [examples.with_provider "openai" "whisper-1" "";
     examples.with_provider "groq-transcription" "whisper-large-v3" "";
     examples.with_provider "groq-translation" "whisper-large-v3" "";
     examples.with_provider "whisper-cpp" "" "http://127.0.0.1:8025/inference"].
Proof. repeat constructor; vm_compute; reflexivity. Qed.

(** ** Resolved notification messages *)

(** The reflective table sends each toml tag to the index of its field. *)
Lemma tagToField_lookup :
  config.tagToField !! "recording_started" = Some 0%nat
  /\ config.tagToField !! "transcribing" = Some 1%nat
  /\ config.tagToField !! "config_reloaded" = Some 2%nat
  /\ config.tagToField !! "operation_cancelled" = Some 3%nat
  /\ config.tagToField !! "recording_aborted" = Some 4%nat
  /\ config.tagToField !! "injection_aborted" = Some 5%nat.
Proof. repeat split; vm_compute; reflexivity. Qed.

Lemma resolve_def_resolved m def :
  In def notify.MessageDefs -> config.resolve_def m def = spec.resolved m def.
Proof.
  destruct tagToField_lookup as (T0 & T1 & T2 & T3 & T4 & T5).
  intros H. simpl in H.
  repeat (destruct H as [H | H]; [
    subst def;
    unfold config.resolve_def, spec.resolved, spec.or_default, spec.configured,
      notify.MsgRecordingStarted, notify.MsgTranscribing, notify.MsgConfigReloaded,
      notify.MsgOperationCancelled, notify.MsgRecordingAborted,
      notify.MsgInjectionAborted;
    cbn [notify.ConfigKey notify.Type_ notify.DefaultTitle notify.DefaultBody
         notify.IsError];
    first [rewrite T0 | rewrite T1 | rewrite T2 | rewrite T3 | rewrite T4 | rewrite T5];
    simpl;
    repeat match goal with
           | |- context [String.eqb ?x ""] => destruct (String.eqb x ""); simpl
           end; reflexivity |]).
  destruct H.
Qed.

(** C10. For every [MessagesConfig], [Resolve] has an entry for every
    message type of [MessageDefs]; its title (and likewise its body) is the
    user-configured value when that is a non-empty string and the default of
    [MessageDefs] otherwise, so an override set to the empty string keeps the
    default; the error flag is the one of [MessageDefs]. *)
Theorem C10_Resolve_merges_overrides_with_defaults (m : config.MessagesConfig) :
  Forall (fun def => config.Resolve m !! notify.Type_ def
                     = Some (spec.resolved m def))
         notify.MessageDefs
  /\ dom (config.Resolve m) = list_to_set (notify.Type_ <$> notify.MessageDefs).
Proof.
  split.
  - apply Forall_forall. intros def Hin.
    rewrite <- (resolve_def_resolved m def) by (apply list_elem_of_In; exact Hin).
    apply list_elem_of_In in Hin. simpl in Hin.
    unfold config.Resolve. simpl.
    repeat (destruct Hin as [<- | Hin]; [by simplify_map_eq |]).
    destruct Hin.
  - unfold config.Resolve. cbn [foldl notify.MessageDefs fmap list_fmap list_to_set foldr].
    rewrite !dom_insert_L, dom_empty_L. simpl. set_solver.
Qed.

(** ** Transcription adapters *)

(** C3. [Transcribe] on a zero-length audio buffer returns the empty string
    and a nil error, and makes no call at all (no request is built or sent),
    for the whisper.cpp adapter and for the Mistral adapter, in every world. *)
Theorem C3_empty_audio_no_request :
  (forall serverURL config ctx w,
      transcriber.WhisperCpp_Transcribe serverURL config ctx "" w = (("", None), []))
  /\ (forall config ctx w,
      transcriber.Mistral_Transcribe config ctx "" w = (("", None), [])).
Proof. split; reflexivity. Qed.

(** Non-empty audio does reach the network: the fast path is the only one
    without a request. *)
Example nonempty_audio_sends_request :
  sys.calls (transcriber.WhisperCpp_Transcribe "http://127.0.0.1:8025/inference"
               examples.whisper_Config sys.Background "pcm")
            (examples.server_answers 200 "{}")
  = [sys.HttpDo (transcriber.whisper_request "http://127.0.0.1:8025/inference"
                   examples.whisper_Config sys.Background "RIFFpcm");
     sys.Log "whisper-cpp-adapter: transcribed %d bytes in %v: %q"
       [sys.AInt 3; sys.AElapsed; sys.AQuoted "hello world"]].
Proof. reflexivity. Qed.

(** C8 (as stated, refuted). The server answers 500 with the body
    "XYZ: model not loaded"; the error the adapter returns is exactly
    "whisper.cpp server error: status 500" and contains no prefix of the body. *)
Lemma C8_error_omits_response_body :
  let r := transcriber.WhisperCpp_Transcribe "http://127.0.0.1:8025/inference"
             examples.whisper_Config sys.Background "pcm"
             (examples.server_answers 500 "XYZ: model not loaded") in
  fst r = ("", Some "whisper.cpp server error: status 500")
  /\ ~ spec.reports_truncated_body "whisper.cpp server error: status 500"
                                   "XYZ: model not loaded".
Proof.
  split; [reflexivity |].
  intros (n & Hn & H). destruct n as [|n]; [inversion Hn |].
  assert (P : forall piece, spec.contains (String "X" piece)
                              "whisper.cpp server error: status 500" = false).
  { intros piece. reflexivity. }
  cbn [String.substring] in H. rewrite P in H. discriminate.
Qed.

(** C8 (amended). When the whisper.cpp server answers with any status code
    other than 200, [Transcribe] sends exactly one request, writes the status
    code and the whole response body to the log, and returns an error that
    names the numeric status code only. *)
Theorem C8_non_OK_status_reported_without_body
    (serverURL : string) (config : transcriber.Config) (ctx : sys.Context)
    (audioData wavData : string) (w : sys.World) (resp : sys.Response) :
  audioData <> "" ->
  sys.convertToWAV w audioData = Ok wavData ->
  sys.new_request w serverURL = None ->
  sys.http_do w (transcriber.whisper_request serverURL config ctx wavData) = Ok resp ->
  sys.StatusCode resp <> transcriber.StatusOK ->
  transcriber.WhisperCpp_Transcribe serverURL config ctx audioData w
  = (("", Some ("whisper.cpp server error: status " +:+ fmt_d (sys.StatusCode resp))),
     [sys.HttpDo (transcriber.whisper_request serverURL config ctx wavData);
      sys.Log "whisper-cpp-adapter: server returned status %d: %s"
        [sys.AInt (sys.StatusCode resp); sys.AStr (sys.Body resp)]]).
Proof.
  intros Hne Hwav Hreq Hdo Hcode.
  unfold transcriber.WhisperCpp_Transcribe.
  destruct audioData as [|a rest]; [contradiction |].
  cbn [String.length Nat.eqb].
  unfold sys.bind, sys.ask, sys.call, sys.ret.
  rewrite Hwav, Hreq.
  rewrite Hdo.
  destruct (Z.eqb_spec (sys.StatusCode resp) transcriber.StatusOK);
    [contradiction | reflexivity].
Qed.

Lemma C8_non_OK_status_reported_without_body_witness :
  transcriber.WhisperCpp_Transcribe "http://127.0.0.1:8025/inference"
    examples.whisper_Config sys.Background "pcm"
    (examples.server_answers 404 "File Not Found")
  = (("", Some "whisper.cpp server error: status 404"),
     [sys.HttpDo (transcriber.whisper_request "http://127.0.0.1:8025/inference"
                    examples.whisper_Config sys.Background "RIFFpcm");
      sys.Log "whisper-cpp-adapter: server returned status %d: %s"
        [sys.AInt 404; sys.AStr "File Not Found"]]).
Proof.
  apply (C8_non_OK_status_reported_without_body
           "http://127.0.0.1:8025/inference" examples.whisper_Config
           sys.Background "pcm" "RIFFpcm"
           (examples.server_answers 404 "File Not Found")
           {| sys.StatusCode := 404; sys.Body := "File Not Found" |});
    [discriminate | reflexivity | reflexivity | reflexivity | discriminate].
Defined.

(** ** The injector *)

(** The value of a computation, composed. *)
Lemma value_bind {A B} (m : sys.M A) (k : A -> sys.M B) w :
  sys.value (sys.bind m k) w = sys.value (k (sys.value m w)) w.
Proof.
  unfold sys.value, sys.bind. destruct (m w) as [a t1]. simpl.
  destruct (k a w); reflexivity.
Qed.

Lemma value_ret {A} (a : A) w : sys.value (sys.ret a) w = a.
Proof. reflexivity. Qed.

Lemma value_call {A} c (answer : sys.World -> A) w :
  sys.value (sys.call c answer) w = answer w.
Proof. reflexivity. Qed.

Ltac value_step :=
  first [ rewrite value_bind | rewrite value_ret | rewrite value_call
        | match goal with
          | |- context [if ?b then _ else _] => destruct b
          | |- context [match ?x with _ => _ end] => destruct x
          end ].

(** Every error other than the empty-text one carries another text. *)
Lemma Inject_nonempty_other_error config ctx a rest w :
  sys.value (injection.Inject config ctx (String a rest)) w
  <> Some "cannot inject empty text".
Proof.
  unfold injection.Inject, injection.inject_by_mode,
    injection.typeText, injection.checkWtypeAvailable,
    injection.restore_and_return.
  cbn [String.eqb].
  repeat value_step; simpl; discriminate.
Qed.

(** C4. For every injector configuration, context and world, [Inject] with
    the empty string returns the error "cannot inject empty text" without
    making any call: no lookup, no clipboard access, no typing. The error is
    distinct: no other input produces it. *)
Theorem C4_Inject_rejects_empty_text :
  (forall config ctx w,
      injection.Inject config ctx "" w = (Some "cannot inject empty text", []))
  /\ (forall config ctx text w,
      sys.value (injection.Inject config ctx text) w
        = Some "cannot inject empty text" <-> text = "").
Proof.
  split; [reflexivity |].
  intros config ctx text w. split.
  - destruct text as [|a rest]; [reflexivity |].
    intros H. exfalso. exact (Inject_nonempty_other_error _ _ _ _ _ H).
  - intros ->. reflexivity.
Qed.

(** A non-empty text in clipboard mode does reach the clipboard tools. *)
Example Inject_clipboard_calls :
  injection.Inject
    {| injection.Mode := "clipboard"; injection.RestoreClipboard := false;
       injection.WtypeTimeout := 5 * config.Second; injection.WtypeDelay := 0;
       injection.ClipboardTimeout := 3 * config.Second |}
    sys.Background "test text" (examples.server_answers 200 "")
  = (None, [sys.CheckClipboardAvailable;
            sys.SetClipboard "test text" 3000000000]).
Proof. reflexivity. Qed.

(** ** The command-line client *)

(** C5 (as stated, refuted). No daemon is listening: [SendCommand] fails,
    the toggle subcommand returns the wrapped error, and the process still
    exits with status zero; the same holds when the daemon replies with an
    [ERR] line. *)
Lemma C5_exit_code_zero_on_connection_failure :
  cli.SendCommand examples.daemon_down "t"
    = Err "failed to connect to daemon: connection refused"
  /\ cli.returned (cli.main examples.daemon_down cli.toggle)
     = Some "failed to toggle recording: failed to connect to daemon: connection refused"
  /\ cli.exit_code (cli.main examples.daemon_down cli.toggle) = 0
  /\ cli.exit_code (cli.main (examples.daemon_replies ("ERR empty" +:+ daemon.nl))
                             cli.toggle) = 0.
Proof. repeat split. Qed.

(** C5 (amended). For every subcommand and every environment the process
    exit code is zero. A control-bus client subcommand prints the reply of
    the daemon, whatever it is, when [SendCommand] succeeds; when it fails,
    it prints nothing on standard output, returns the error wrapped in a
    "failed to ..." message, and that message goes to standard error. *)
Theorem C5_client_always_exits_zero (env : cli.Env) (c : cli.Subcommand) :
  cli.exit_code (cli.main env c) = 0
  /\ match spec.client_byte c with
     | None => True
     | Some b =>
         match cli.SendCommand env b with
         | Ok resp =>
             cli.stdout (cli.main env c) = resp
             /\ cli.stderr (cli.main env c) = ""
             /\ cli.returned (cli.main env c) = None
         | Err e =>
             cli.stdout (cli.main env c) = ""
             /\ exists what,
                 cli.returned (cli.main env c)
                   = Some ("failed to " +:+ what +:+ ": " +:+ e)
                 /\ cli.stderr (cli.main env c)
                    = "Error: failed to " +:+ what +:+ ": " +:+ e
                      +:+ daemon.nl +:+ cli.usage env c
         end
     end.
Proof.
  split.
  - unfold cli.main. destruct (cli.Execute env c) as [[out err_out] e].
    reflexivity.
  - destruct c; simpl; trivial;
      unfold cli.main, cli.Execute, cli.RunE, cli.send_and_print;
      match goal with
      | |- context [cli.SendCommand env ?b] => destruct (cli.SendCommand env b)
      end; simpl; repeat split; eexists; split; reflexivity.
Qed.

(** ** The daemon's connection handler *)

Lemma until_newline_nonempty data line :
  daemon.until_newline data = Some line -> line <> "".
Proof.
  destruct data as [|c rest]; simpl; [discriminate |].
  destruct (Ascii.eqb c daemon.newline).
  - intros [= <-]. discriminate.
  - destruct (daemon.until_newline rest); simpl; [| discriminate].
    intros [= <-]. discriminate.
Qed.

(** [ERR empty] is dead: no connection makes [handle] reply with it. *)
Lemma handle_never_ERR_empty ProtoVer c st :
  fst (daemon.handle ProtoVer c st) <> "ERR empty" +:+ daemon.nl.
Proof.
  unfold daemon.handle, daemon.ReadString.
  destruct (daemon.until_newline (daemon.written c)) as [line|] eqn:E.
  - apply until_newline_nonempty in E.
    destruct line as [|cmd rest]; [contradiction |].
    repeat match goal with
           | |- context [Ascii.eqb ?a ?b] => destruct (Ascii.eqb a b)
           end; simpl; discriminate.
  - simpl. discriminate.
Qed.

(** C6 (as stated, refuted). The peer writes the command byte [t] without
    a newline, or nothing at all, and closes the connection: the reply is
    [ERR read_error: EOF], not [ERR empty]. *)
Lemma C6_short_read_replies_read_error :
  let st := daemon.New config.default_Config in
  daemon.until_newline "t" = None
  /\ fst (daemon.handle "1" (examples.closed_after "t") st)
     = "ERR read_error: EOF" +:+ daemon.nl
  /\ fst (daemon.handle "1" (examples.closed_after "") st)
     = "ERR read_error: EOF" +:+ daemon.nl
  /\ fst (daemon.handle "1" (examples.closed_after "t") st)
     <> "ERR empty" +:+ daemon.nl.
Proof. repeat split. apply handle_never_ERR_empty. Qed.

(** C6 (amended). For every connection whose request is a short read (it
    ends before a newline), the daemon replies [ERR read_error:] followed by
    the text of the read error, which is EOF when the peer closed the
    connection; it logs the error and touches nothing else. The reply
    [ERR empty] is never sent on any connection. *)
Theorem C6_short_read_reports_read_error
    (ProtoVer : string) (c : daemon.Conn) (st : daemon.State) :
  daemon.until_newline (daemon.written c) = None ->
  daemon.handle ProtoVer c st
  = ("ERR read_error: " +:+ daemon.read_error c +:+ daemon.nl,
     daemon.wg_add (daemon.log st ("Client read error: " +:+ daemon.read_error c)) (-1))
  /\ forall c' st', fst (daemon.handle ProtoVer c' st') <> "ERR empty" +:+ daemon.nl.
Proof.
  intros H. split.
  - unfold daemon.handle, daemon.ReadString. rewrite H. reflexivity.
  - intros c' st'. apply handle_never_ERR_empty.
Qed.

Lemma C6_short_read_reports_read_error_witness :
  daemon.handle "1" (examples.closed_after "s") (daemon.New config.default_Config)
  = ("ERR read_error: EOF" +:+ daemon.nl,
     daemon.wg_add (daemon.log (daemon.New config.default_Config)
                      "Client read error: EOF") (-1)).
Proof.
  apply (C6_short_read_reports_read_error "1" (examples.closed_after "s")
           (daemon.New config.default_Config)).
  reflexivity.
Defined.

(** C7. For every command byte outside t, c, s, v, q received on the
    control bus, the daemon replies [ERR unknown=] followed by the quoted
    byte, and leaves the pipeline slot, every pipeline and so the observed
    status, the notifier, the daemon context, the configuration and the
    notifications sent as they were. *)
Theorem C7_unknown_byte_changes_nothing
    (ProtoVer : string) (c : daemon.Conn) (st : daemon.State)
    (cmd : ascii) (rest : string) :
  daemon.ReadString c = (String cmd rest, None) ->
  ~ In cmd spec.known_bytes ->
  let st' := snd (daemon.handle ProtoVer c st) in
  fst (daemon.handle ProtoVer c st) = "ERR unknown=" +:+ daemon.fmt_q cmd +:+ daemon.nl
  /\ daemon.d_pipeline st' = daemon.d_pipeline st
  /\ daemon.heap st' = daemon.heap st
  /\ daemon.status st' = daemon.status st
  /\ daemon.d_notifier st' = daemon.d_notifier st
  /\ daemon.d_cancelled st' = daemon.d_cancelled st
  /\ daemon.d_config st' = daemon.d_config st
  /\ daemon.notified st' = daemon.notified st.
Proof.
  intros Hread Hcmd. unfold daemon.handle. rewrite Hread.
  assert (T : Ascii.eqb cmd "t" = false /\ Ascii.eqb cmd "c" = false
              /\ Ascii.eqb cmd "s" = false /\ Ascii.eqb cmd "v" = false
              /\ Ascii.eqb cmd "q" = false).
  { repeat split; apply Ascii.eqb_neq; intros ->; apply Hcmd; simpl; tauto. }
  destruct T as (-> & -> & -> & -> & ->).
  repeat split.
Qed.

Lemma C7_unknown_byte_changes_nothing_witness :
  let st := daemon.New config.default_Config in
  let r := daemon.handle "1" (examples.closed_after ("x" +:+ daemon.nl)) st in
  fst r = "ERR unknown='x'" +:+ daemon.nl
  /\ daemon.d_pipeline (snd r) = daemon.d_pipeline st
  /\ daemon.heap (snd r) = daemon.heap st
  /\ daemon.status (snd r) = daemon.status st
  /\ daemon.d_notifier (snd r) = daemon.d_notifier st
  /\ daemon.d_cancelled (snd r) = daemon.d_cancelled st
  /\ daemon.d_config (snd r) = daemon.d_config st
  /\ daemon.notified (snd r) = daemon.notified st.
Proof.
  apply (C7_unknown_byte_changes_nothing "1"
           (examples.closed_after ("x" +:+ daemon.nl))
           (daemon.New config.default_Config) "x" daemon.nl).
  - reflexivity.
  - simpl. intros [H | [H | [H | [H | [H | []]]]]]; discriminate.
Defined.

(** ** Migration of the legacy injection mode *)

Lemma GetConfigPath_set_file fs path f :
  config.GetConfigPath (config.set_file fs path f) = config.GetConfigPath fs.
Proof. reflexivity. Qed.

(** The file [Load] reads after creating the defaults is the one
    [SaveDefaultConfig] has just written. *)
Lemma SaveDefaultConfig_writes_defaults fs fs' path :
  config.GetConfigPath fs = Ok path ->
  config.SaveDefaultConfig fs = (None, fs') ->
  config.GetConfigPath fs' = Ok path
  /\ config.files fs' !! path = Some config.default_file.
Proof.
  intros Hpath. unfold config.SaveDefaultConfig. rewrite Hpath.
  destruct (config.Create fs); [discriminate |].
  destruct (config.WriteString fs); [discriminate |].
  intros [= <-]. split.
  - rewrite GetConfigPath_set_file. exact Hpath.
  - cbn [config.files config.set_file]. apply lookup_insert_eq.
Qed.

Lemma Load_existing fs path f :
  config.GetConfigPath fs = Ok path ->
  fst (config.Load (config.set_file fs path f)) = config.load_file path f.
Proof.
  intros H. unfold config.Load. rewrite GetConfigPath_set_file, H.
  cbn [config.files config.set_file]. rewrite lookup_insert_eq. reflexivity.
Qed.

Lemma migrateInjectionMode_legacy base m :
  config.migrateInjectionMode (config.set_Backends base []) (spec.mode_key m)
  = let new := config.set_Backends base (spec.migrated_backends m) in
    if config.YdotoolTimeout (config.Injection base) =? 0
    then config.set_YdotoolTimeout new (5 * config.Second)
    else new.
Proof.
  unfold config.migrateInjectionMode.
  destruct m; cbn [spec.mode_key spec.migrated_backends String.eqb Ascii.eqb
                   Bool.eqb];
    cbn [config.set_Backends config.Injection config.YdotoolTimeout];
    destruct (config.YdotoolTimeout (config.Injection base) =? 0); reflexivity.
Qed.

(** C9 (as stated, refuted). The legacy file of the loader's own migration
    test sets no [ydotool_timeout]. Loaded with [mode = "fallback"] it gets
    the backends [wtype, clipboard] and a ydotool timeout of 5 s, and is
    valid; loaded in the migrated form, with [backends] written out, its
    ydotool timeout stays zero, and [Validate] rejects it. *)
Lemma C9_legacy_and_migrated_form_differ :
  exists legacy new,
    fst (config.Load (config.set_file examples.home examples.home_path
           (spec.legacy_file examples.legacy_base spec.mode_fallback))) = Ok legacy
    /\ fst (config.Load (config.set_file examples.home examples.home_path
           (spec.new_form_file examples.legacy_base spec.mode_fallback))) = Ok new
    /\ config.Backends (config.Injection legacy) = ["wtype"; "clipboard"]
    /\ config.Backends (config.Injection new) = ["wtype"; "clipboard"]
    /\ config.YdotoolTimeout (config.Injection legacy) = 5 * config.Second
    /\ config.YdotoolTimeout (config.Injection new) = 0
    /\ legacy <> new
    /\ config.Validate ∅ legacy = None
    /\ config.Validate ∅ new = Some (config.InvalidYdotoolTimeout 0).
Proof.
  do 2 eexists. split; [vm_compute; reflexivity |].
  split; [vm_compute; reflexivity |].
  repeat split; try (vm_compute; reflexivity).
  intros H. apply (f_equal (fun c => config.YdotoolTimeout (config.Injection c))) in H.
  vm_compute in H. discriminate.
Qed.

(** C9 (amended). For every legacy mode in clipboard, type, fallback and
    every setting of the other keys, loading the file that uses
    [injection.mode] and loading the same file written with the migrated
    backends list both succeed, with the backends the migration table gives,
    and produce snapshots that agree in every field except possibly
    [injection.ydotool_timeout]: the legacy load alone replaces a zero (unset)
    ydotool timeout by 5 s. The two snapshots are equal exactly when the file
    sets a non-zero ydotool timeout. *)
Theorem C9_migration_equal_up_to_ydotool_timeout
    (fs : config.FileSystem) (path : string) (base : config.Config)
    (m : spec.LegacyMode) :
  config.GetConfigPath fs = Ok path ->
  exists legacy new,
    fst (config.Load (config.set_file fs path (spec.legacy_file base m))) = Ok legacy
    /\ fst (config.Load (config.set_file fs path (spec.new_form_file base m))) = Ok new
    /\ new = config.set_Backends base (spec.migrated_backends m)
    /\ legacy = (if config.YdotoolTimeout (config.Injection base) =? 0
                 then config.set_YdotoolTimeout new (5 * config.Second)
                 else new)
    /\ (legacy = new <-> config.YdotoolTimeout (config.Injection base) <> 0).
Proof.
  intros Hpath.
  exists (config.migrateInjectionMode (config.set_Backends base []) (spec.mode_key m)),
         (config.set_Backends base (spec.migrated_backends m)).
  split.
  { rewrite (Load_existing _ _ _ Hpath). reflexivity. }
  split.
  { rewrite (Load_existing _ _ _ Hpath). unfold config.load_file.
    destruct m; reflexivity. }
  split; [reflexivity |].
  rewrite migrateInjectionMode_legacy. cbv zeta.
  split; [reflexivity |].
  destruct (Z.eqb_spec (config.YdotoolTimeout (config.Injection base)) 0) as [E | E].
  - split; [| contradiction].
    intros H.
    apply (f_equal (fun c => config.YdotoolTimeout (config.Injection c))) in H.
    cbn [config.set_YdotoolTimeout config.set_Backends config.Injection
         config.YdotoolTimeout] in H.
    rewrite E in H. discriminate.
  - tauto.
Qed.

Lemma C9_migration_equal_up_to_ydotool_timeout_witness :
  exists legacy new,
    fst (config.Load (config.set_file examples.home examples.home_path
           (spec.legacy_file config.default_Config spec.mode_type))) = Ok legacy
    /\ fst (config.Load (config.set_file examples.home examples.home_path
           (spec.new_form_file config.default_Config spec.mode_type))) = Ok new
    /\ new = config.set_Backends config.default_Config (spec.migrated_backends spec.mode_type)
    /\ legacy = (if config.YdotoolTimeout (config.Injection config.default_Config) =? 0
                 then config.set_YdotoolTimeout new (5 * config.Second)
                 else new)
    /\ (legacy = new
        <-> config.YdotoolTimeout (config.Injection config.default_Config) <> 0).
Proof.
  apply (C9_migration_equal_up_to_ydotool_timeout examples.home
           examples.home_path config.default_Config spec.mode_type).
  reflexivity.
Defined.

(** ** The daemon's pipeline slot *)

Lemma stopPipeline_effect st :
  length (daemon.heap (daemon.stopPipeline st)) = length (daemon.heap st)
  /\ daemon.d_pipeline (daemon.stopPipeline st) = None.
Proof.
  unfold daemon.stopPipeline.
  destruct (daemon.d_pipeline st) as [r|]; [| split; reflexivity].
  simpl. destruct (daemon.heap st !! r); [| split; reflexivity].
  split; [apply length_insert | reflexivity].
Qed.

Lemma constructs_none_stop st :
  spec.constructs_none st (daemon.stopPipeline st).
Proof.
  destruct (stopPipeline_effect st) as [L S]. split; [exact L | right; exact S].
Qed.

(** [toggle] branches on the observed status: it constructs a pipeline
    exactly when that status is Idle. *)
Lemma toggle_effect st :
  match daemon.status st with
  | pipeline.Idle => spec.constructs_one st (daemon.toggle st)
  | _ => spec.constructs_none st (daemon.toggle st)
  end.
Proof.
  unfold daemon.toggle.
  destruct (daemon.status st) eqn:E.
  - split; reflexivity.
  - apply (constructs_none_stop st).
  - unfold spec.constructs_none.
    destruct (daemon.d_pipeline st) as [r|] eqn:S; simpl.
    + destruct (daemon.heap st !! r); simpl.
      * split; [apply length_insert | left; reflexivity].
      * split; [reflexivity | left; congruence].
    + split; [reflexivity | left; congruence].
  - apply (constructs_none_stop st).
Qed.

Lemma cancelPipeline_effect st :
  spec.constructs_none st (daemon.cancelPipeline st).
Proof.
  unfold daemon.cancelPipeline.
  destruct (daemon.status st);
    [split; [reflexivity | left; reflexivity] | ..];
    apply (constructs_none_stop st).
Qed.

Lemma status_wg_add st delta :
  daemon.status (daemon.wg_add st delta) = daemon.status st.
Proof. reflexivity. Qed.

(** What a handled connection does to the slot: nothing is constructed,
    unless the command is a toggle observed in status Idle. *)
Lemma handle_effect ProtoVer c st :
  let st' := snd (daemon.handle ProtoVer c st) in
  spec.constructs_none st st'
  \/ (daemon.status st = pipeline.Idle
      /\ spec.constructs_one st st'
      /\ exists rest, daemon.ReadString c = (String "t" rest, None)).
Proof.
  unfold daemon.handle.
  destruct (daemon.ReadString c) as [line [err|]] eqn:R.
  { left. split; [reflexivity | left; reflexivity]. }
  destruct line as [|cmd rest].
  { left. split; [reflexivity | left; reflexivity]. }
  destruct (Ascii.eqb_spec cmd "t") as [-> | _].
  { pose proof (toggle_effect st) as T.
    destruct (daemon.status st) eqn:E.
    - right. split; [reflexivity |]. split; [exact T | eauto].
    - left. exact T.
    - left. exact T.
    - left. exact T. }
  destruct (Ascii.eqb cmd "c").
  { left. apply (cancelPipeline_effect st). }
  repeat match goal with
         | |- context [Ascii.eqb ?a ?b] => destruct (Ascii.eqb a b)
         end; left; (split; [reflexivity | left; reflexivity]).
Qed.

Lemma step_effect ProtoVer st st' :
  daemon.step ProtoVer st st' ->
  spec.constructs_none st st'
  \/ (daemon.status st = pipeline.Idle
      /\ spec.constructs_one st st'
      /\ exists c rest,
          daemon.ReadString c = (String "t" rest, None)
          /\ st' = snd (daemon.handle ProtoVer c (daemon.wg_add st 1))).
Proof.
  intros [st0 c | st0 conf | st0 r p p' Hp Hd].
  - destruct (handle_effect ProtoVer c (daemon.wg_add st0 1)) as [K | (I & O & rest & R)].
    + left. exact K.
    + right. split; [exact I |]. split; [exact O | eauto].
  - left. unfold daemon.onConfigReload. simpl.
    apply (constructs_none_stop (daemon.log (daemon.set_config st0 conf) _)).
  - left. split; [apply length_insert | left; reflexivity].
Qed.

Lemma slot_in_heap_step ProtoVer st st' :
  spec.slot_in_heap st -> daemon.step ProtoVer st st' -> spec.slot_in_heap st'.
Proof.
  intros I S. apply step_effect in S.
  unfold spec.slot_in_heap in *.
  destruct S as [[L [K | K]] | (_ & [H K] & _)].
  - rewrite K, L. exact I.
  - rewrite K. exact Logic.I.
  - rewrite K, H, length_app. simpl. lia.
Qed.

Lemma reachable_slot_in_heap ProtoVer st :
  daemon.reachable ProtoVer st -> spec.slot_in_heap st.
Proof.
  induction 1 as [conf | st st' _ IH S].
  - exact Logic.I.
  - exact (slot_in_heap_step ProtoVer st st' IH S).
Qed.

(** The state after one complete session is reachable. *)
Lemma session_over_reachable : daemon.reachable "1" examples.session_over.
Proof.
  assert (R1 : daemon.reachable "1" examples.session_started).
  { apply (daemon.reachable_step "1" (daemon.New config.default_Config)).
    - apply daemon.reachable_New.
    - apply daemon.step_handle. }
  assert (R2 : daemon.reachable "1" examples.session_recording).
  { apply (daemon.reachable_step "1" examples.session_started); [exact R1 |].
    apply (daemon.step_drive "1" examples.session_started 0
             (pipeline.Run (pipeline.New config.default_Config))).
    - reflexivity.
    - apply pipeline.enter_recording; reflexivity. }
  assert (R3 : daemon.reachable "1" examples.session_transcribing).
  { apply (daemon.reachable_step "1" examples.session_recording); [exact R2 |].
    eapply (daemon.step_drive "1" examples.session_recording 0).
    - reflexivity.
    - apply pipeline.end_of_audio; reflexivity. }
  assert (R4 : daemon.reachable "1" examples.session_committed).
  { apply (daemon.reachable_step "1" examples.session_transcribing); [exact R3 |].
    apply daemon.step_handle. }
  assert (R5 : daemon.reachable "1" examples.session_injecting).
  { apply (daemon.reachable_step "1" examples.session_committed); [exact R4 |].
    eapply (daemon.step_drive "1" examples.session_committed 0).
    - reflexivity.
    - apply (pipeline.commit _ []); reflexivity. }
  apply (daemon.reachable_step "1" examples.session_injecting); [exact R5 |].
  eapply (daemon.step_drive "1" examples.session_injecting 0).
  - reflexivity.
  - apply pipeline.teardown; reflexivity.
Qed.

(** C2 (as stated, refuted). After one complete session the first pipeline
    is idle again and still in the daemon's slot. The next toggle constructs a
    second pipeline and installs it over the first: the slot was not nil and
    was not cleared, the first pipeline never went through [stopPipeline]. *)
Lemma C2_toggle_overwrites_idle_pipeline :
  ~ (forall st st',
        daemon.reachable "1" st -> daemon.step "1" st st' ->
        spec.installs_new st st' -> spec.nil_or_cleared st st').
Proof.
  intros claim.
  specialize (claim examples.session_over (examples.after_toggle examples.session_over)
                    session_over_reachable (daemon.step_handle "1" _ _)).
  assert (I : spec.installs_new examples.session_over
                (examples.after_toggle examples.session_over)).
  { exists 1%nat. split; [reflexivity | vm_compute; lia]. }
  destruct (claim I) as [N | (r & p & S & H & Stopped)].
  - vm_compute in N. discriminate.
  - vm_compute in S. injection S as <-.
    vm_compute in H. injection H as <-.
    discriminate.
Qed.

(** C2 (amended). In every reachable daemon state the single pipeline
    slot refers to a pipeline that was constructed. Every step constructs no
    pipeline and keeps or clears the slot, except a toggle command observed in
    status Idle, which constructs exactly one pipeline from the current
    snapshot, starts it and puts it in the slot; the status is Idle when the
    slot is nil and also when the pipeline in it reports Idle, and that
    pipeline is then replaced without being stopped. [toggle] itself
    constructs a pipeline exactly when the observed status is Idle; for
    Recording, Transcribing and Injecting it constructs none. *)
Theorem C2_pipeline_installed_only_by_toggle_when_idle
    (ProtoVer : string) (st st' : daemon.State) :
  daemon.reachable ProtoVer st ->
  daemon.step ProtoVer st st' ->
  spec.slot_in_heap st'
  /\ (spec.constructs_none st st'
      \/ (daemon.status st = pipeline.Idle
          /\ spec.constructs_one st st'
          /\ exists c rest,
              daemon.ReadString c = (String "t" rest, None)
              /\ st' = snd (daemon.handle ProtoVer c (daemon.wg_add st 1))))
  /\ match daemon.status st with
     | pipeline.Idle => spec.constructs_one st (daemon.toggle st)
     | _ => spec.constructs_none st (daemon.toggle st)
     end.
Proof.
  intros R S. split.
  - apply (reachable_slot_in_heap ProtoVer).
    exact (daemon.reachable_step ProtoVer st st' R S).
  - split; [exact (step_effect ProtoVer st st' S) | exact (toggle_effect st)].
Qed.

Lemma C2_pipeline_installed_only_by_toggle_when_idle_witness :
  spec.slot_in_heap (examples.after_toggle examples.session_over)
  /\ (spec.constructs_none examples.session_over
        (examples.after_toggle examples.session_over)
      \/ (daemon.status examples.session_over = pipeline.Idle
          /\ spec.constructs_one examples.session_over
               (examples.after_toggle examples.session_over)
          /\ exists c rest,
              daemon.ReadString c = (String "t" rest, None)
              /\ examples.after_toggle examples.session_over
                 = snd (daemon.handle "1" c (daemon.wg_add examples.session_over 1))))
  /\ match daemon.status examples.session_over with
     | pipeline.Idle =>
         spec.constructs_one examples.session_over
           (daemon.toggle examples.session_over)
     | _ =>
         spec.constructs_none examples.session_over
           (daemon.toggle examples.session_over)
     end.
Proof.
  apply (C2_pipeline_installed_only_by_toggle_when_idle "1"
           examples.session_over (examples.after_toggle examples.session_over)).
  - exact session_over_reachable.
  - apply daemon.step_handle.
Defined.

(** * Further properties of the code *)

(** ** Validation *)

Lemma true_set_spec (keys : list string) (k : string) :
  index_bool (true_set keys) k = true <-> In k keys.
Proof.
  unfold index_bool, true_set. rewrite <- list_elem_of_In.
  destruct (list_to_map ((fun k0 => (k0, true)) <$> keys) !! k) as [b|] eqn:E; simpl.
  - apply elem_of_list_to_map_2 in E.
    apply list_elem_of_fmap in E as (k' & [= -> ->] & Hin). tauto.
  - split; [discriminate |]. intros Hin. exfalso.
    apply not_elem_of_list_to_map_2 in E. apply E.
    rewrite <- list_fmap_compose. simpl.
    apply list_elem_of_fmap. exists k. split; [reflexivity | exact Hin].
Qed.

Lemma reject_if_iff b e rest :
  config.reject_if b e rest = None <-> b = false /\ rest = None.
Proof. destruct b; simpl; intuition congruence. Qed.

Lemma backends_check_iff backends rest :
  config.backends_check backends rest = None
  <-> Forall (fun b => In b ["ydotool"; "wtype"; "clipboard"]) backends
      /\ rest = None.
Proof.
  induction backends as [|b more IH]; cbn [config.backends_check].
  - split; [intros H; split; [constructor | exact H] | tauto].
  - rewrite reject_if_iff, IH, Forall_cons_iff, negb_false_iff.
    unfold config.validBackends. rewrite true_set_spec. tauto.
Qed.

Lemma eqb_empty_false s : String.eqb s "" = false <-> s <> "".
Proof. apply String.eqb_neq. Qed.

Lemma key_or_env_has_key env t name :
  String.eqb (config.key_or_env env t name) "" = false <-> obs.has_key env t name.
Proof.
  unfold config.key_or_env, obs.has_key.
  destruct (String.eqb_spec (config.APIKey t) "") as [E | E];
    rewrite eqb_empty_false; tauto.
Qed.

Lemma language_check_iff t rest :
  config.language_check t rest = None
  <-> (config.Language t = ""
       \/ config.isValidLanguageCode (config.Language t) = true)
      /\ rest = None.
Proof.
  unfold config.language_check. rewrite reject_if_iff.
  destruct (String.eqb_spec (config.Language t) "") as [E | E];
    destruct (config.isValidLanguageCode (config.Language t)); simpl;
    intuition congruence.
Qed.

Lemma provider_check_iff env t rest :
  config.provider_check env t rest = None
  <-> ((config.Language t = ""
        \/ config.isValidLanguageCode (config.Language t) = true)
       /\ ((config.Provider t = "openai" /\ obs.has_key env t "OPENAI_API_KEY")
           \/ (config.Provider t = "groq-transcription"
               /\ obs.has_key env t "GROQ_API_KEY"
               /\ (config.Model t = ""
                   \/ In (config.Model t) ["whisper-large-v3"; "whisper-large-v3-turbo"]))
           \/ (config.Provider t = "groq-translation"
               /\ obs.has_key env t "GROQ_API_KEY"
               /\ (config.Model t = "" \/ config.Model t = "whisper-large-v3"))
           \/ (config.Provider t = "mistral-transcription"
               /\ obs.has_key env t "MISTRAL_API_KEY"
               /\ (config.Model t = ""
                   \/ In (config.Model t) ["voxtral-mini-latest"; "voxtral-mini-2507"]))
           \/ (config.Provider t = "whisper-cpp" /\ config.ServerURL t <> "")))
      /\ rest = None.
Proof.
  unfold config.provider_check.
  destruct (String.eqb_spec (config.Provider t) "openai") as [P | P0].
  { rewrite reject_if_iff, language_check_iff, key_or_env_has_key, P.
    intuition congruence. }
  destruct (String.eqb_spec (config.Provider t) "groq-transcription") as [P | P1].
  { rewrite reject_if_iff, language_check_iff, reject_if_iff, key_or_env_has_key, P.
    rewrite andb_false_iff, !negb_false_iff, String.eqb_eq.
    unfold config.validGroqModels. rewrite true_set_spec.
    intuition congruence. }
  destruct (String.eqb_spec (config.Provider t) "groq-translation") as [P | P2].
  { rewrite reject_if_iff, language_check_iff, reject_if_iff, key_or_env_has_key, P.
    rewrite andb_false_iff, !negb_false_iff, !String.eqb_eq.
    intuition congruence. }
  destruct (String.eqb_spec (config.Provider t) "mistral-transcription") as [P | P3].
  { rewrite reject_if_iff, language_check_iff, reject_if_iff, key_or_env_has_key, P.
    rewrite andb_false_iff, !negb_false_iff, String.eqb_eq.
    unfold config.validMistralModels. rewrite true_set_spec.
    intuition congruence. }
  destruct (String.eqb_spec (config.Provider t) "whisper-cpp") as [P | P4].
  { rewrite reject_if_iff, language_check_iff, eqb_empty_false, P.
    intuition congruence. }
  intuition congruence.
Qed.

(** X1. [Validate] returns nil exactly for the well-formed
    configurations: positive recording sizes and timeouts, a non-empty
    format, one of the five providers with its credential (from the file or
    the environment) or server URL and a model the provider allows, an empty
    or known language code, a non-empty list of known backends, and a known
    notification type. *)
Theorem Validate_accepts_exactly_well_formed
    (env : gmap string string) (c : config.Config) :
  config.Validate env c = None <-> obs.well_formed env c.
Proof.
  unfold config.Validate, obs.well_formed, obs.provider_ok. cbv zeta.
  rewrite !reject_if_iff, provider_check_iff, !reject_if_iff,
    backends_check_iff, !reject_if_iff.
  rewrite !Z.leb_gt, !eqb_empty_false, andb_false_iff, !negb_false_iff,
    String.eqb_eq, eqb_empty_false, Nat.eqb_neq.
  unfold config.validTypes. rewrite true_set_spec.
  assert (L : length (config.Backends (config.Injection c)) <> 0%nat
              <-> config.Backends (config.Injection c) <> []).
  { destruct (config.Backends (config.Injection c)); simpl; split; congruence. }
  rewrite L. clear L.
  assert (M3 : In "" ["whisper-large-v3"; "whisper-large-v3-turbo"] -> False).
  { simpl. intuition discriminate. }
  assert (M4 : In "" ["voxtral-mini-latest"; "voxtral-mini-2507"] -> False).
  { simpl. intuition discriminate. }
  assert (M5 : "whisper-large-v3" <> "") by discriminate.
  split.
  - intros (? & ? & ? & ? & ? & ? & _ & (Hl & Hp) & Hm & ? & ? & ? & ? & ? & ? & _).
    repeat split; try assumption.
    destruct Hp as [[P K] | [(P & K & Md) | [(P & K & Md) | [(P & K & Md) | [P U]]]]];
      [left | right; left | do 2 right; left | do 3 right; left | do 4 right];
      (repeat split; try assumption);
      destruct Hm as [Hm | Hm]; try (rewrite P in Hm; discriminate);
      try assumption; destruct Md as [Md | Md]; congruence.
  - intros (? & ? & ? & ? & ? & ? & Hl & Hp & ? & ? & ? & ? & ? & ?).
    assert (Pne : config.Provider (config.Transcription c) <> "").
    { destruct Hp as [(P & _) | [(P & _) | [(P & _) | [(P & _) | [P _]]]]];
        rewrite P; discriminate. }
    repeat split; try assumption.
    + destruct Hp as [(P & K & Md) | [(P & K & Md) | [(P & K & Md) | [(P & K & Md) | [P U]]]]];
        [left | right; left | do 2 right; left | do 3 right; left | do 4 right];
        tauto.
    + destruct Hp as [(P & K & Md) | [(P & K & Md) | [(P & K & Md) | [(P & K & Md) | [P U]]]]].
      * right. exact Md.
      * right. intros E. rewrite E in Md. tauto.
      * right. congruence.
      * right. intros E. rewrite E in Md. tauto.
      * left. exact P.
Qed.

(** X2. For a snapshot that [Validate] accepts, [NewTranscriber] applied
    to its transcriber view ([ToTranscriberConfig]) succeeds exactly when
    the provider is not mistral-transcription: the other four providers
    always get a transcriber, with the credential that validation checked. *)
Theorem validated_Config_gets_transcriber_iff
    (env : gmap string string) (c : config.Config) :
  config.Validate env c = None ->
  (is_ok (transcriber.NewTranscriber (config.ToTranscriberConfig env c)) = true
   <-> config.Provider (config.Transcription c) <> "mistral-transcription").
Proof.
  intros V. split.
  - intros H E. revert H.
    unfold transcriber.NewTranscriber, config.ToTranscriberConfig. simpl.
    rewrite E. simpl. discriminate.
  - intros Hm. exact (NewTranscriber_after_Validate env c V Hm).
Qed.

Lemma validated_Config_gets_transcriber_iff_witness :
  is_ok (transcriber.NewTranscriber
           (config.ToTranscriberConfig ∅ (examples.with_provider "openai" "whisper-1" "")))
  = true
  <-> config.Provider
        (config.Transcription (examples.with_provider "openai" "whisper-1" ""))
      <> "mistral-transcription".
Proof.
  apply (validated_Config_gets_transcriber_iff
           ∅ (examples.with_provider "openai" "whisper-1" "")).
  vm_compute. reflexivity.
Defined.

(** X3. The configuration written on first start validates exactly when
    the environment provides OPENAI_API_KEY: the defaults name the openai
    provider and leave the key empty. *)
Theorem default_Config_valid_iff_env_key (env : gmap string string) :
  config.Validate env config.default_Config = None
  <-> config.Getenv env "OPENAI_API_KEY" <> "".
Proof.
  unfold config.Validate. cbv zeta.
  rewrite !reject_if_iff, provider_check_iff, !reject_if_iff,
    backends_check_iff, !reject_if_iff.
  unfold config.validTypes. rewrite negb_false_iff, true_set_spec.
  unfold obs.has_key. simpl.
  split.
  - intros (_ & _ & _ & _ & _ & _ & _ & ((_ & Hp) & _)).
    destruct Hp as [(_ & [K | K]) | [(P & _) | [(P & _) | [(P & _) | [P _]]]]];
      try discriminate; [contradiction | exact K].
  - intros K. repeat split; auto 10.
Qed.

Lemma load_file_default path :
  config.load_file path config.default_file = Ok config.default_Config.
Proof. reflexivity. Qed.

(** X4. On a system without a configuration file, [Load] writes the
    defaults, returns them, and leaves a file system on which [Load] returns
    the same snapshot again without writing. *)
Theorem Load_creates_defaults_once
    (fs : config.FileSystem) (path : string) :
  config.GetConfigPath fs = Ok path ->
  config.files fs !! path = None ->
  config.Create fs = None ->
  config.WriteString fs = None ->
  let fs' := config.set_file fs path config.default_file in
  config.Load fs = (Ok config.default_Config, fs')
  /\ config.Load fs' = (Ok config.default_Config, fs').
Proof.
  intros Hpath Hnone Hcreate Hwrite fs'. split.
  - unfold config.Load, config.SaveDefaultConfig.
    rewrite Hpath, Hnone, Hcreate, Hwrite. reflexivity.
  - unfold config.Load. unfold fs' at 1 2.
    rewrite GetConfigPath_set_file, Hpath.
    cbn [config.files config.set_file]. rewrite lookup_insert_eq.
    reflexivity.
Qed.

Lemma Load_creates_defaults_once_witness :
  let fs' := config.set_file examples.home examples.home_path config.default_file in
  config.Load examples.home = (Ok config.default_Config, fs')
  /\ config.Load fs' = (Ok config.default_Config, fs').
Proof.
  apply (Load_creates_defaults_once examples.home examples.home_path);
    reflexivity.
Defined.

(** What the migration leaves behind, whatever the mode string. *)
Lemma migrateInjectionMode_result c mode :
  let c' := config.migrateInjectionMode c mode in
  In (config.Backends (config.Injection c')) obs.migration_targets
  /\ config.YdotoolTimeout (config.Injection c')
     = (if config.YdotoolTimeout (config.Injection c) =? 0
        then 5 * config.Second
        else config.YdotoolTimeout (config.Injection c))
  /\ config.WtypeTimeout (config.Injection c') = config.WtypeTimeout (config.Injection c)
  /\ config.WtypeDelay (config.Injection c') = config.WtypeDelay (config.Injection c)
  /\ config.ClipboardTimeout (config.Injection c')
     = config.ClipboardTimeout (config.Injection c)
  /\ config.Recording c' = config.Recording c
  /\ config.Transcription c' = config.Transcription c
  /\ config.Notifications c' = config.Notifications c.
Proof.
  unfold config.migrateInjectionMode, obs.migration_targets.
  destruct (String.eqb mode "clipboard"); [| destruct (String.eqb mode "type");
    [| destruct (String.eqb mode "fallback")]];
    cbn [config.set_Backends config.Injection config.YdotoolTimeout];
    destruct (config.YdotoolTimeout (config.Injection c) =? 0);
    simpl; tauto.
Qed.

(** X5. Migrating is idempotent, for every mode string: a second
    migration with the same mode changes nothing. It only ever writes the
    backends, to one of four fixed lists of known backends, and the ydotool
    timeout, which is non-zero afterwards; every other field is kept. *)
Theorem migrateInjectionMode_idempotent (c : config.Config) (mode : string) :
  let c' := config.migrateInjectionMode c mode in
  config.migrateInjectionMode c' mode = c'
  /\ In (config.Backends (config.Injection c')) obs.migration_targets
  /\ config.YdotoolTimeout (config.Injection c') <> 0
  /\ config.WtypeTimeout (config.Injection c') = config.WtypeTimeout (config.Injection c)
  /\ config.WtypeDelay (config.Injection c') = config.WtypeDelay (config.Injection c)
  /\ config.ClipboardTimeout (config.Injection c')
     = config.ClipboardTimeout (config.Injection c)
  /\ config.Recording c' = config.Recording c
  /\ config.Transcription c' = config.Transcription c
  /\ config.Notifications c' = config.Notifications c.
Proof.
  destruct (migrateInjectionMode_result c mode) as (B & Y & W & D & Cl & R & T & N).
  cbv zeta. split; [| split; [exact B | split; [| tauto]]].
  - unfold config.migrateInjectionMode.
    destruct (String.eqb mode "clipboard"); [| destruct (String.eqb mode "type");
      [| destruct (String.eqb mode "fallback")]];
      cbn [config.set_Backends config.Injection config.YdotoolTimeout];
      destruct (Z.eqb_spec (config.YdotoolTimeout (config.Injection c)) 0) as [E | E];
      cbn [config.set_Backends config.set_YdotoolTimeout config.Injection
           config.YdotoolTimeout config.Recording config.Transcription
           config.Notifications config.Backends config.WtypeTimeout
           config.WtypeDelay config.ClipboardTimeout];
      try (destruct (Z.eqb_spec (config.YdotoolTimeout (config.Injection c)) 0);
           [contradiction |]);
      reflexivity.
  - rewrite Y.
    destruct (Z.eqb_spec (config.YdotoolTimeout (config.Injection c)) 0);
      [discriminate | assumption].
Qed.

Lemma load_file_backends path f c :
  config.load_file path f = Ok c -> config.Backends (config.Injection c) <> [].
Proof.
  unfold config.load_file.
  destruct (config.decode_Config f) as [config | e]; [| discriminate].
  destruct (config.Backends (config.Injection config)) as [|b more] eqn:E; simpl.
  - intros [= <-].
    destruct (migrateInjectionMode_result config (config.decode_legacy_mode f))
      as (B & _).
    simpl in B. intros Hnil. rewrite Hnil in B.
    intuition discriminate.
  - intros [= <-]. rewrite E. discriminate.
Qed.

(** X6. A configuration that [Load] returns never has an empty backend
    list: an empty or missing list in the file is always replaced by the
    migration, whatever the legacy mode says. *)
Theorem Load_never_returns_empty_backends
    (fs : config.FileSystem) (c : config.Config) :
  fst (config.Load fs) = Ok c ->
  config.Backends (config.Injection c) <> [].
Proof.
  unfold config.Load.
  destruct (config.GetConfigPath fs) as [path | e]; [| discriminate].
  destruct (config.files fs !! path) as [f |].
  - apply load_file_backends.
  - destruct (config.SaveDefaultConfig fs) as [[e |] fs']; [discriminate |].
    apply load_file_backends.
Qed.

Lemma Load_never_returns_empty_backends_witness :
  config.Backends (config.Injection
    (config.migrateInjectionMode
       (config.set_Backends examples.legacy_base []) "no-such-mode")) <> [].
Proof.
  apply (Load_never_returns_empty_backends
           (config.set_file examples.home examples.home_path
              {| config.decode_Config := Ok (config.set_Backends examples.legacy_base []);
                 config.decode_legacy_mode := "no-such-mode" |})).
  reflexivity.
Defined.

(** X7. Every language code [isValidLanguageCode] accepts consists of
    exactly two lowercase ASCII letters; in particular the empty string,
    upper-case codes and region-qualified codes are rejected. *)
Theorem isValidLanguageCode_two_lowercase_letters (code : string) :
  config.isValidLanguageCode code = true -> obs.two_lower code = true.
Proof.
  unfold config.isValidLanguageCode, config.validCodes.
  rewrite true_set_spec. revert code.
  apply (proj1 (List.Forall_forall (fun code => obs.two_lower code = true) _)).
  repeat constructor.
Qed.

Lemma isValidLanguageCode_two_lowercase_letters_witness :
  obs.two_lower "en" = true.
Proof.
  apply (isValidLanguageCode_two_lowercase_letters "en").
  vm_compute. reflexivity.
Defined.

(** X8. A hosted provider's validated configuration always converts to a
    transcriber configuration with a non-empty credential, and a validated
    whisper-cpp configuration to one with a server URL: [Validate] and
    [ToTranscriberConfig] look the key up in the same place. When the file
    holds a key, the environment is not consulted at all. *)
Theorem Validate_then_credential_present
    (env : gmap string string) (c : config.Config) :
  config.Validate env c = None ->
  let t := config.ToTranscriberConfig env c in
  (if String.eqb (transcriber.Provider t) "whisper-cpp"
   then transcriber.ServerURL t <> ""
   else transcriber.APIKey t <> "")
  /\ (config.APIKey (config.Transcription c) = ""
      \/ forall env', config.ToTranscriberConfig env' c = t).
Proof.
  intros V. apply Validate_provider in V. cbv zeta in V. cbv zeta.
  unfold config.ToTranscriberConfig. cbn [transcriber.Provider
    transcriber.APIKey transcriber.ServerURL].
  split.
  - unfold config.key_or_env in V.
    destruct V as [[P K] | [[P K] | [[P K] | [[P K] | [P K]]]]];
      rewrite P in *; simpl;
      try (destruct (String.eqb (config.APIKey (config.Transcription c)) "");
           exact K);
      exact K.
  - destruct (String.eqb_spec (config.APIKey (config.Transcription c)) "");
      [left; assumption | right; reflexivity].
Qed.

Lemma Validate_then_credential_present_witness :
  transcriber.APIKey (config.ToTranscriberConfig ∅ examples.mistral_Config) <> "".
Proof.
  apply (Validate_then_credential_present ∅ examples.mistral_Config).
  vm_compute. reflexivity.
Defined.

(** ** The transcriber factory and the adapters *)

(** X9. [NewTranscriber] succeeds exactly when the provider is openai,
    groq-transcription or groq-translation with a non-empty API key, or
    whisper-cpp with a non-empty server URL; every other configuration,
    the empty provider included, is an error. *)
Theorem NewTranscriber_succeeds_iff (cfg : transcriber.Config) :
  is_ok (transcriber.NewTranscriber cfg) = true <-> obs.factory_accepts cfg.
Proof.
  unfold transcriber.NewTranscriber, obs.factory_accepts. simpl.
  destruct (String.eqb_spec (transcriber.Provider cfg) "openai") as [P | P0].
  { rewrite P. destruct (String.eqb_spec (transcriber.APIKey cfg) ""); simpl;
      split; try discriminate; try tauto.
    intros [[_ K] | [D _]]; [contradiction | discriminate]. }
  destruct (String.eqb_spec (transcriber.Provider cfg) "groq-transcription") as [P | P1].
  { rewrite P. destruct (String.eqb_spec (transcriber.APIKey cfg) ""); simpl;
      split; try discriminate; try tauto.
    intros [[_ K] | [D _]]; [contradiction | discriminate]. }
  destruct (String.eqb_spec (transcriber.Provider cfg) "groq-translation") as [P | P2].
  { rewrite P. destruct (String.eqb_spec (transcriber.APIKey cfg) ""); simpl;
      split; try discriminate; try tauto.
    intros [[_ K] | [D _]]; [contradiction | discriminate]. }
  destruct (String.eqb_spec (transcriber.Provider cfg) "whisper-cpp") as [P | P3].
  { rewrite P. destruct (String.eqb_spec (transcriber.ServerURL cfg) ""); simpl;
      split; try discriminate; try tauto.
    intros [[[D | [D | [D | []]]] _] | [_ U]]; try discriminate. contradiction. }
  simpl. split; [discriminate |].
  intros [[[D | [D | [D | []]]] _] | [D _]]; congruence.
Qed.

Lemma calls_bind {A B} (m : sys.M A) (k : A -> sys.M B) w :
  sys.calls (sys.bind m k) w = sys.calls m w ++ sys.calls (k (sys.value m w)) w.
Proof.
  unfold sys.calls, sys.value, sys.bind. destruct (m w) as [a t1]. simpl.
  destruct (k a w); reflexivity.
Qed.

Lemma calls_ret {A} (a : A) w : sys.calls (sys.ret a) w = [].
Proof. reflexivity. Qed.

Lemma calls_call {A} c (answer : sys.World -> A) w :
  sys.calls (sys.call c answer) w = [c].
Proof. reflexivity. Qed.

Lemma calls_ask {A} (answer : sys.World -> A) w :
  sys.calls (sys.ask answer) w = [].
Proof. reflexivity. Qed.

Lemma value_ask {A} (answer : sys.World -> A) w :
  sys.value (sys.ask answer) w = answer w.
Proof. reflexivity. Qed.

(** Take a computation apart: unfold it to the pair of its value and
    its calls, and split on every test and every answer of the world. *)
Ltac run_cases :=
  unfold sys.calls, sys.value, sys.bind, sys.call, sys.ret, sys.ask;
  repeat (cbn beta iota zeta delta [fst snd app];
          match goal with
          | |- context [match ?x with _ => _ end] =>
              lazymatch type of x with
              | prod _ _ => fail
              | _ => destruct x eqn:?
              end
          end);
  cbn beta iota zeta delta [fst snd app].

(** X10. The whisper.cpp adapter sends at most one HTTP request per
    [Transcribe] call. A request that is sent is the POST to the configured
    server URL, bound to the caller's context, whose form carries the WAV
    built from the audio; none is sent when the audio is empty, when the WAV
    conversion fails or when the request cannot be created. *)
Theorem WhisperCpp_at_most_one_request
    (serverURL : string) (config : transcriber.Config) (ctx : sys.Context)
    (audioData : string) (w : sys.World) :
  let sent := filter (fun c => obs.is_http c = true)
                (sys.calls (transcriber.WhisperCpp_Transcribe serverURL config ctx audioData) w) in
  sent = []
  \/ (audioData <> "" /\ sys.new_request w serverURL = None
      /\ exists wavData,
          sys.convertToWAV w audioData = Ok wavData
          /\ sent = [sys.HttpDo (transcriber.whisper_request serverURL config ctx wavData)]).
Proof.
  unfold transcriber.WhisperCpp_Transcribe.
  destruct audioData as [|a rest]; [left; reflexivity |].
  cbn [String.length Nat.eqb].
  rewrite calls_bind, calls_ask, value_ask.
  destruct (sys.convertToWAV w (String a rest)) as [wavData | e] eqn:W;
    [| left; reflexivity].
  rewrite calls_bind, calls_ask, value_ask.
  destruct (sys.new_request w serverURL) eqn:N; [left; reflexivity |].
  right. split; [discriminate |]. split; [reflexivity |].
  exists wavData. split; [reflexivity |].
  unfold sys.calls, sys.bind, sys.call.
  cbn beta iota zeta delta [fst snd app].
  run_cases; reflexivity.
Qed.

(** X11. Neither adapter ever returns a transcript together with an
    error: whenever the error is non-nil the text is empty. *)
Theorem Transcribe_error_means_no_text
    (serverURL : string) (config : transcriber.Config) (ctx : sys.Context)
    (audioData : string) (w : sys.World) :
  (snd (sys.value (transcriber.WhisperCpp_Transcribe serverURL config ctx audioData) w)
     = None
   \/ fst (sys.value (transcriber.WhisperCpp_Transcribe serverURL config ctx audioData) w)
      = "")
  /\ (snd (sys.value (transcriber.Mistral_Transcribe config ctx audioData) w) = None
      \/ fst (sys.value (transcriber.Mistral_Transcribe config ctx audioData) w) = "").
Proof.
  unfold transcriber.WhisperCpp_Transcribe, transcriber.Mistral_Transcribe.
  destruct audioData as [|a rest]; [split; left; reflexivity |].
  cbn [String.length Nat.eqb].
  split; run_cases; tauto.
Qed.

(** ** The injector and the wtype helper *)

(** X12. [typeText] runs wtype only when the tool is available (found on
    the path, with WAYLAND_DISPLAY and XDG_RUNTIME_DIR set), only as
    [wtype <text>], and, when a delay is configured, only when the context is
    not already done. *)
Theorem typeText_runs_only_when_available
    (ctx : sys.Context) (text : string) (timeout delay : Z) (w : sys.World)
    (argv : list string) :
  In (sys.Run argv) (sys.calls (injection.typeText ctx text timeout delay) w) ->
  obs.wtype_available w
  /\ argv = ["wtype"; text]
  /\ (delay <= 0 \/ sys.ctx_err ctx = None).
Proof.
  unfold injection.typeText, injection.checkWtypeAvailable, injection.done_before,
    obs.wtype_available.
  cbn [sys.WithTimeout sys.ctx_err sys.ctx_left].
  run_cases; simpl;
    intros H; repeat (destruct H as [H | H]; try discriminate); try contradiction;
    injection H as <-;
    repeat match goal with
           | E : String.eqb _ "" = false |- _ => apply String.eqb_neq in E
           | E : (_ <? _) = _ |- _ => apply Z.ltb_ge in E || apply Z.ltb_lt in E
           end;
    repeat split; try assumption; try reflexivity; try congruence;
    first [ left; lia
          | right;
            match goal with
            | E : match sys.ctx_err ctx with _ => _ end = None |- _ =>
                destruct (sys.ctx_err ctx); [discriminate E | reflexivity]
            end ].
Qed.

Lemma typeText_runs_only_when_available_witness :
  obs.wtype_available (examples.server_answers 200 "")
  /\ ["wtype"; "hello"] = ["wtype"; "hello"]
  /\ (0 <= 0 \/ sys.ctx_err sys.Background = None).
Proof.
  apply (typeText_runs_only_when_available sys.Background "hello"
           (5 * config.Second) 0 (examples.server_answers 200 "") ["wtype"; "hello"]).
  vm_compute. tauto.
Defined.

Ltac unfold_Inject :=
  unfold injection.Inject, injection.inject_by_mode, injection.restore_and_return,
    injection.typeText, injection.checkWtypeAvailable.

(** X13. In type mode the injector never touches the clipboard: it does
    not check for the clipboard tools, read or set the clipboard, or schedule
    a restore, whatever the restore flag says. *)
Theorem Inject_type_mode_leaves_clipboard_alone
    (config : injection.Config) (ctx : sys.Context) (text : string)
    (w : sys.World) :
  injection.Mode config = "type" ->
  forallb (fun c => negb (obs.is_clipboard c))
    (sys.calls (injection.Inject config ctx text) w) = true.
Proof.
  intros Hmode. unfold_Inject. rewrite Hmode.
  cbn [String.eqb Ascii.eqb Bool.eqb orb andb negb].
  rewrite andb_false_r.
  run_cases; reflexivity.
Qed.

Lemma Inject_type_mode_leaves_clipboard_alone_witness :
  forallb (fun c => negb (obs.is_clipboard c))
    (sys.calls (injection.Inject (obs.injector_Config "type" true)
                  sys.Background "hello")
       (examples.server_answers 200 "")) = true.
Proof.
  apply (Inject_type_mode_leaves_clipboard_alone (obs.injector_Config "type" true)).
  reflexivity.
Defined.

(** X14. In clipboard mode the injector never looks for or runs wtype,
    never sleeps and never schedules a restore of the previous clipboard,
    even when restoring is configured: the text stays on the clipboard. *)
Theorem Inject_clipboard_mode_never_types
    (config : injection.Config) (ctx : sys.Context) (text : string)
    (w : sys.World) :
  injection.Mode config = "clipboard" ->
  forallb (fun c => negb (obs.is_typing c) && negb (obs.is_go c))
    (sys.calls (injection.Inject config ctx text) w) = true.
Proof.
  intros Hmode. unfold_Inject. rewrite Hmode.
  cbn [String.eqb Ascii.eqb Bool.eqb orb andb negb].
  run_cases; reflexivity.
Qed.

Lemma Inject_clipboard_mode_never_types_witness :
  forallb (fun c => negb (obs.is_typing c) && negb (obs.is_go c))
    (sys.calls (injection.Inject (obs.injector_Config "clipboard" true)
                  sys.Background "hello")
       (examples.server_answers 200 "")) = true.
Proof.
  apply (Inject_clipboard_mode_never_types (obs.injector_Config "clipboard" true)).
  reflexivity.
Defined.

(** X15. In fallback mode, once the clipboard tools are available and
    the text has been copied, [Inject] returns nil whatever happens to the
    typing: a missing wtype, a done context or a failed run is swallowed. *)
Theorem Inject_fallback_swallows_typing_errors
    (config : injection.Config) (ctx : sys.Context) (text : string)
    (w : sys.World) :
  injection.Mode config = "fallback" ->
  text <> "" ->
  sys.checkClipboardAvailable w = None ->
  sys.setClipboard w ctx text (injection.ClipboardTimeout config) = None ->
  sys.value (injection.Inject config ctx text) w = None.
Proof.
  intros Hmode Htext Havail Hset. unfold_Inject. rewrite Hmode.
  destruct text as [|a rest]; [contradiction |].
  cbn [String.eqb Ascii.eqb Bool.eqb orb andb negb].
  unfold sys.value, sys.bind, sys.call, sys.ret.
  cbn beta iota zeta delta [fst snd app]. rewrite Havail.
  destruct (injection.RestoreClipboard config);
    cbn beta iota zeta delta [fst snd app]; rewrite Hset;
    run_cases; reflexivity.
Qed.

Lemma Inject_fallback_swallows_typing_errors_witness :
  sys.value (injection.Inject (obs.injector_Config "fallback" false)
               sys.Background "hello") obs.without_wtype = None.
Proof.
  apply (Inject_fallback_swallows_typing_errors (obs.injector_Config "fallback" false));
    [reflexivity | discriminate | reflexivity | reflexivity].
Defined.

(** X16. With a mode other than clipboard, type and fallback, a
    non-empty text is rejected with "unsupported injection mode" naming the
    mode, before any tool is looked up or run. *)
Theorem Inject_unsupported_mode
    (config : injection.Config) (ctx : sys.Context) (text : string)
    (w : sys.World) :
  ~ In (injection.Mode config) ["clipboard"; "type"; "fallback"] ->
  text <> "" ->
  injection.Inject config ctx text w
  = (Some ("unsupported injection mode: " +:+ injection.Mode config), []).
Proof.
  intros Hmode Htext. unfold injection.Inject, injection.inject_by_mode.
  destruct text as [|a rest]; [contradiction |].
  cbn [String.eqb].
  destruct (String.eqb_spec (injection.Mode config) "clipboard") as [E | _];
    [exfalso; apply Hmode; rewrite E; simpl; tauto |].
  destruct (String.eqb_spec (injection.Mode config) "fallback") as [E | _];
    [exfalso; apply Hmode; rewrite E; simpl; tauto |].
  destruct (String.eqb_spec (injection.Mode config) "type") as [E | _];
    [exfalso; apply Hmode; rewrite E; simpl; tauto |].
  reflexivity.
Qed.

Lemma Inject_unsupported_mode_witness :
  injection.Inject (obs.injector_Config "paste" false) sys.Background "hello"
    (examples.server_answers 200 "")
  = (Some "unsupported injection mode: paste", []).
Proof.
  apply (Inject_unsupported_mode (obs.injector_Config "paste" false)).
  - simpl. intros [H | [H | [H | []]]]; discriminate.
  - discriminate.
Defined.

(** X17. The previous clipboard content is restored only when restoring
    is configured, the mode is fallback, the content read before copying was
    not empty, and the typing succeeded; the restore is scheduled 100 ms
    later and puts back exactly what was read. *)
Theorem Inject_restores_only_after_typing
    (config : injection.Config) (ctx : sys.Context) (text : string)
    (w : sys.World) (after : Z) (c : sys.Call) :
  In (sys.Go after c) (sys.calls (injection.Inject config ctx text) w) ->
  injection.RestoreClipboard config = true
  /\ injection.Mode config = "fallback"
  /\ after = 100000000
  /\ sys.value (injection.Inject config ctx text) w = None
  /\ exists original,
      original <> ""
      /\ sys.getClipboard w ctx (injection.ClipboardTimeout config) = Ok original
      /\ c = sys.SetClipboard original (injection.ClipboardTimeout config)
      /\ In (sys.Run ["wtype"; text]) (sys.calls (injection.Inject config ctx text) w).
Proof.
  unfold_Inject.
  destruct (String.eqb_spec text "") as [-> | Htext];
    [simpl; intros []|].
  destruct (String.eqb_spec (injection.Mode config) "clipboard") as [E | E1].
  { rewrite E. cbn [String.eqb Ascii.eqb Bool.eqb orb andb negb].
    run_cases; simpl; intros H;
      repeat (destruct H as [H | H]; try discriminate); contradiction. }
  destruct (String.eqb_spec (injection.Mode config) "fallback") as [E | E2].
  2:{ cbn [orb]. rewrite andb_false_r.
      run_cases; simpl; intros H;
        repeat (destruct H as [H | H]; try discriminate); contradiction. }
  rewrite E. cbn [String.eqb Ascii.eqb Bool.eqb orb andb negb].
  run_cases; simpl; intros H;
    repeat (destruct H as [H | H]; try discriminate); try contradiction;
    injection H as <- <-;
    repeat match goal with
           | E : negb (String.eqb _ "") = true |- _ =>
               apply negb_true_iff, String.eqb_neq in E
           | E : (_ && _) = true |- _ => apply andb_true_iff in E as [? ?]
           end;
    idtac.
  all: split; [reflexivity |].
  all: split; [reflexivity |].
  all: split; [reflexivity |].
  all: split; [reflexivity |].
  all: eexists; split; [eassumption |]; split; [reflexivity |].
  all: split; [reflexivity |].
  all: repeat first [left; reflexivity | right].
Qed.

Lemma Inject_restores_only_after_typing_witness :
  injection.RestoreClipboard (obs.injector_Config "fallback" true) = true
  /\ injection.Mode (obs.injector_Config "fallback" true) = "fallback"
  /\ 100000000 = 100000000
  /\ sys.value (injection.Inject (obs.injector_Config "fallback" true)
                  sys.Background "hello") (examples.server_answers 200 "") = None
  /\ exists original,
      original <> ""
      /\ sys.getClipboard (examples.server_answers 200 "") sys.Background
           (injection.ClipboardTimeout (obs.injector_Config "fallback" true))
         = Ok original
      /\ sys.SetClipboard "previous" (3 * config.Second)
         = sys.SetClipboard original
             (injection.ClipboardTimeout (obs.injector_Config "fallback" true))
      /\ In (sys.Run ["wtype"; "hello"])
            (sys.calls (injection.Inject (obs.injector_Config "fallback" true)
                          sys.Background "hello") (examples.server_answers 200 "")).
Proof.
  apply (Inject_restores_only_after_typing
           (obs.injector_Config "fallback" true) sys.Background "hello"
           (examples.server_answers 200 "") 100000000
           (sys.SetClipboard "previous" (3 * config.Second))).
  vm_compute. tauto.
Defined.

(** ** The clipboard and ydotool backends *)

Lemma bvalue_bind {A B} (m : backend.B A) (k : A -> backend.B B) h :
  backend.value (backend.bind m k) h
  = backend.value (k (backend.value m h)) h.
Proof.
  unfold backend.value, backend.bind. destruct (m h) as [a t1]. simpl.
  destruct (k a h); reflexivity.
Qed.

Lemma bops_bind {A B} (m : backend.B A) (k : A -> backend.B B) h :
  backend.ops (backend.bind m k) h
  = backend.ops m h ++ backend.ops (k (backend.value m h)) h.
Proof.
  unfold backend.ops, backend.value, backend.bind. destruct (m h) as [a t1]. simpl.
  destruct (k a h); reflexivity.
Qed.

Lemma bvalue_op {A} o (answer : backend.Host -> A) h :
  backend.value (backend.op o answer) h = answer h.
Proof. reflexivity. Qed.

Lemma bvalue_ret {A} (a : A) h : backend.value (backend.ret a) h = a.
Proof. reflexivity. Qed.

Ltac backend_cases :=
  unfold backend.ops, backend.value, backend.bind, backend.op, backend.ret;
  repeat (cbn beta iota zeta delta [fst snd app];
          match goal with
          | |- context [match ?x with _ => _ end] =>
              lazymatch type of x with
              | prod _ _ => fail
              | _ => destruct x eqn:?
              end
          end);
  cbn beta iota zeta delta [fst snd app].

(** X18. The clipboard backend runs nothing but [wl-copy], with the text
    on its standard input, and only after its own availability check has
    passed: wl-copy is on the path and WAYLAND_DISPLAY and XDG_RUNTIME_DIR are
    set. *)
Theorem clipboard_Inject_runs_only_wl_copy
    (ctx : sys.Context) (text : string) (timeout : Z) (h : backend.Host)
    (argv : list string) (stdin : string) :
  In (backend.Run argv stdin)
     (backend.ops (backend.clipboard_Inject ctx text timeout) h) ->
  argv = ["wl-copy"] /\ stdin = text
  /\ backend.value backend.clipboard_Available h = None
  /\ backend.look_path h "wl-copy" = None
  /\ backend.getenv h "WAYLAND_DISPLAY" <> ""
  /\ backend.getenv h "XDG_RUNTIME_DIR" <> "".
Proof.
  unfold backend.clipboard_Inject, backend.clipboard_Available.
  backend_cases; simpl; intros H;
    repeat (destruct H as [H | H]; try discriminate); try contradiction;
    injection H as <- <-;
    repeat match goal with
           | E : String.eqb _ "" = false |- _ => apply String.eqb_neq in E
           end;
    repeat split; assumption.
Qed.

Lemma clipboard_Inject_runs_only_wl_copy_witness :
  ["wl-copy"] = ["wl-copy"] /\ "hello" = "hello"
  /\ backend.value backend.clipboard_Available obs.wayland_host = None
  /\ backend.look_path obs.wayland_host "wl-copy" = None
  /\ backend.getenv obs.wayland_host "WAYLAND_DISPLAY" <> ""
  /\ backend.getenv obs.wayland_host "XDG_RUNTIME_DIR" <> "".
Proof.
  apply (clipboard_Inject_runs_only_wl_copy sys.Background "hello"
           (3 * config.Second) obs.wayland_host ["wl-copy"] "hello").
  vm_compute. tauto.
Defined.

Lemma first_existing_value paths h :
  backend.value (backend.first_existing paths) h
  = hd "" (filter (fun p => backend.stat h p = true) paths).
Proof.
  induction paths as [|p more IH]; [reflexivity |].
  cbn [backend.first_existing]. rewrite bvalue_bind, bvalue_op, filter_cons.
  destruct (backend.stat h p) eqn:E.
  - rewrite decide_True by reflexivity. reflexivity.
  - rewrite decide_False by discriminate. exact IH.
Qed.

Lemma first_existing_ops_no_run paths h :
  forallb (fun o => negb (obs.is_backend_run o))
    (backend.ops (backend.first_existing paths) h) = true.
Proof.
  induction paths as [|p more IH]; [reflexivity |].
  cbn [backend.first_existing]. rewrite bops_bind.
  unfold backend.op at 1 2. unfold backend.ops at 1, backend.value at 1.
  cbn [fst snd]. rewrite forallb_app. cbn [forallb obs.is_backend_run negb andb].
  destruct (backend.stat h p); [reflexivity | exact IH].
Qed.

Lemma getSocketPath_value (h : backend.Host) :
  backend.value backend.getSocketPath h
  = hd "" (filter (fun p => backend.stat h p = true) (obs.socket_candidates h)).
Proof.
  assert (S : backend.value backend.search_paths h
              = hd "" (filter (fun p => backend.stat h p = true)
                         ((if String.eqb (backend.getenv h "XDG_RUNTIME_DIR") "" then []
                           else [backend.join h (backend.getenv h "XDG_RUNTIME_DIR")
                                   ".ydotool_socket"])
                          ++ backend.common_paths (backend.getuid h)))).
  { unfold backend.search_paths.
    rewrite !bvalue_bind, !bvalue_op, first_existing_value.
    destruct (String.eqb (backend.getenv h "XDG_RUNTIME_DIR") ""); reflexivity. }
  unfold backend.getSocketPath, obs.socket_candidates.
  rewrite bvalue_bind, bvalue_op.
  destruct (String.eqb (backend.getenv h "YDOTOOL_SOCKET") "") eqn:Y;
    cbn [negb app]; [exact S |].
  rewrite bvalue_bind, bvalue_op, filter_cons.
  destruct (backend.stat h (backend.getenv h "YDOTOOL_SOCKET")) eqn:E.
  - rewrite decide_True by reflexivity. reflexivity.
  - rewrite decide_False by discriminate. exact S.
Qed.



Lemma bops_op {A} o (answer : backend.Host -> A) h :
  backend.ops (backend.op o answer) h = [o].
Proof. reflexivity. Qed.

Lemma bops_ret {A} (a : A) h : backend.ops (backend.ret a) h = [].
Proof. reflexivity. Qed.

Lemma getSocketPath_ops_no_run h :
  forallb (fun o => negb (obs.is_backend_run o))
    (backend.ops backend.getSocketPath h) = true.
Proof.
  assert (S : forallb (fun o => negb (obs.is_backend_run o))
                (backend.ops backend.search_paths h) = true).
  { unfold backend.search_paths.
    rewrite !bops_bind, !bops_op, !forallb_app, first_existing_ops_no_run.
    destruct (negb (String.eqb (backend.value
                (backend.op (backend.Getenv "XDG_RUNTIME_DIR")
                   (fun h0 => backend.getenv h0 "XDG_RUNTIME_DIR")) h) ""));
      reflexivity. }
  unfold backend.getSocketPath.
  rewrite bops_bind, bops_op, forallb_app, bvalue_op.
  destruct (negb (String.eqb (backend.getenv h "YDOTOOL_SOCKET") ""));
    [| exact S].
  rewrite bops_bind, bops_op, forallb_app, bvalue_op.
  destruct (backend.stat h (backend.getenv h "YDOTOOL_SOCKET"));
    [reflexivity | exact S].
Qed.

Lemma hd_filter_stat h (paths : list string) :
  hd "" (filter (fun p => backend.stat h p = true) paths) <> "" ->
  backend.stat h (hd "" (filter (fun p => backend.stat h p = true) paths)) = true.
Proof.
  destruct (filter (fun p => backend.stat h p = true) paths) as [|q more] eqn:E;
    [simpl; congruence |].
  intros _. simpl.
  assert (Hin : q ∈ filter (fun p => backend.stat h p = true) paths).
  { rewrite E. apply list_elem_of_here. }
  apply list_elem_of_filter in Hin. tauto.
Qed.

(** X19. [getSocketPath] returns the first existing path among, in this
    order, the one named by YDOTOOL_SOCKET (when set), the socket under
    XDG_RUNTIME_DIR (when set), the socket under /run/user/<uid> and the one
    under /tmp. The result is one of these paths and exists, or it is
    the empty string when none of them exists. *)
Theorem getSocketPath_first_existing_candidate (h : backend.Host) :
  let socketPath := backend.value backend.getSocketPath h in
  socketPath
    = hd "" (filter (fun p => backend.stat h p = true) (obs.socket_candidates h))
  /\ (socketPath = ""
      \/ (In socketPath (obs.socket_candidates h)
          /\ backend.stat h socketPath = true)).
Proof.
  cbv zeta. rewrite getSocketPath_value. split; [reflexivity |].
  destruct (filter (fun p => backend.stat h p = true) (obs.socket_candidates h))
    as [|q more] eqn:E; [left; reflexivity | right].
  assert (Hin : q ∈ filter (fun p => backend.stat h p = true)
                      (obs.socket_candidates h)).
  { rewrite E. apply list_elem_of_here. }
  apply list_elem_of_filter in Hin as [Hstat Hin].
  apply list_elem_of_In in Hin. simpl. tauto.
Qed.

(** Split a membership hypothesis over appended traces, and discard the
    members that cannot be the call looked for. *)
Ltac split_in H :=
  repeat match type of H with
         | In _ (_ ++ _) => apply in_app_or in H
         | _ \/ _ => destruct H as [H | H]
         | In _ [] => destruct H
         | In _ (_ :: _) => destruct H as [H | H]
         | False => destruct H
         | _ => first [discriminate H | contradiction]
         end.

(** X20. The ydotool backend runs nothing but [ydotool type -- <text>],
    so the text is always a single argument after the end-of-options marker,
    and only after ydotool was found on the path and the daemon answered on
    the socket that [getSocketPath] selected, a path that exists. *)
Theorem ydotool_Inject_runs_only_after_dial
    (ctx : sys.Context) (text : string) (timeout : Z) (h : backend.Host)
    (argv : list string) (stdin : string) :
  In (backend.Run argv stdin)
     (backend.ops (backend.ydotool_Inject ctx text timeout) h) ->
  let socketPath := backend.value backend.getSocketPath h in
  argv = ["ydotool"; "type"; "--"; text] /\ stdin = ""
  /\ backend.look_path h "ydotool" = None
  /\ socketPath <> ""
  /\ backend.stat h socketPath = true
  /\ backend.dial h socketPath = None.
Proof.
  intros Hin socketPath.
  assert (Hno : forall l, forallb (fun o => negb (obs.is_backend_run o)) l = true ->
                          ~ In (backend.Run argv stdin) l).
  { intros l Hl Hi. rewrite forallb_forall in Hl. specialize (Hl _ Hi).
    discriminate. }
  assert (Hsock : ~ In (backend.Run argv stdin) (backend.ops backend.getSocketPath h)).
  { exact (Hno _ (getSocketPath_ops_no_run h)). }
  clear Hno.
  unfold backend.ydotool_Inject, backend.ydotool_Available in Hin.
  rewrite !bops_bind, !bops_op, !bvalue_bind, !bvalue_op in Hin.
  destruct (backend.look_path h "ydotool") eqn:L.
  { rewrite ?bops_ret, ?bvalue_ret, ?bops_ret in Hin. split_in Hin. }
  rewrite ?bops_bind, ?bvalue_bind in Hin. fold socketPath in Hin.
  destruct (String.eqb_spec socketPath "") as [E | E].
  { rewrite ?bops_ret, ?bvalue_ret, ?bops_ret in Hin. split_in Hin. }
  rewrite ?bops_bind, ?bops_op, ?bvalue_bind, ?bvalue_op in Hin.
  destruct (backend.dial h socketPath) eqn:D.
  { rewrite ?bops_ret, ?bvalue_ret, ?bops_ret in Hin. split_in Hin. }
  rewrite ?bops_ret, ?bvalue_ret in Hin.
  rewrite ?bops_bind, ?bops_op, ?bvalue_op in Hin.
  destruct (backend.run h (sys.WithTimeout ctx timeout)
              ["ydotool"; "type"; "--"; text] "");
    rewrite ?bops_ret in Hin; split_in Hin;
    injection Hin as <- <-;
    (repeat split; try assumption; try reflexivity);
    unfold socketPath in *; rewrite getSocketPath_value in *;
    apply hd_filter_stat; exact E.
Qed.

Lemma ydotool_Inject_runs_only_after_dial_witness :
  let socketPath := backend.value backend.getSocketPath obs.wayland_host in
  ["ydotool"; "type"; "--"; "-n hello"] = ["ydotool"; "type"; "--"; "-n hello"]
  /\ "" = ""
  /\ backend.look_path obs.wayland_host "ydotool" = None
  /\ socketPath <> ""
  /\ backend.stat obs.wayland_host socketPath = true
  /\ backend.dial obs.wayland_host socketPath = None.
Proof.
  apply (ydotool_Inject_runs_only_after_dial sys.Background "-n hello"
           (5 * config.Second) obs.wayland_host
           ["ydotool"; "type"; "--"; "-n hello"] "").
  vm_compute. tauto.
Defined.

(** ** Notifications *)

Lemma Resolve_lookup m def :
  In def notify.MessageDefs ->
  config.Resolve m !! notify.Type_ def = Some (spec.resolved m def).
Proof.
  intros Hin. rewrite <- (resolve_def_resolved m def Hin).
  simpl in Hin. unfold config.Resolve. simpl.
  repeat (destruct Hin as [<- | Hin]; [by simplify_map_eq |]).
  destruct Hin.
Qed.

Lemma Resolve_lookup_other m (mt : notify.MessageType) :
  ~ In mt (notify.Type_ <$> notify.MessageDefs) ->
  config.Resolve m !! mt = None.
Proof.
  intros Hout. unfold config.Resolve. simpl in *.
  rewrite !lookup_insert_ne by (intros <-; apply Hout; tauto).
  apply lookup_empty.
Qed.

(** X21. With the table that [Resolve] builds, a desktop or log notifier
    emits exactly one output for each of the six message types, carrying the
    resolved body; an error message goes out with critical urgency under the
    fixed title "Hyprvoice Error", whatever title is configured. Any other
    message type is dropped silently. *)
Theorem Send_resolved_messages (m : config.MessagesConfig) :
  Forall (fun def =>
            notify.Send (notify.Desktop (config.Resolve m)) (notify.Type_ def)
              = [obs.shown true (spec.resolved m def)]
            /\ notify.Send (notify.Log (config.Resolve m)) (notify.Type_ def)
               = [obs.shown false (spec.resolved m def)])
         notify.MessageDefs
  /\ forall mt : notify.MessageType,
      In mt (notify.Type_ <$> notify.MessageDefs)
      \/ (notify.Send (notify.Desktop (config.Resolve m)) mt = []
          /\ notify.Send (notify.Log (config.Resolve m)) mt = []).
Proof.
  split.
  - apply List.Forall_forall. intros def Hin.
    unfold notify.Send. rewrite (Resolve_lookup m def Hin).
    unfold obs.shown, notify.Error.
    destruct (notify.MsgIsError (spec.resolved m def)); split; reflexivity.
  - intros mt.
    destruct (In_dec Z.eq_dec mt (notify.Type_ <$> notify.MessageDefs)) as [Hin | Hout];
      [left; exact Hin | right].
    unfold notify.Send. cbv beta iota.
    rewrite (Resolve_lookup_other m mt Hout).
    split; reflexivity.
Qed.

(** X22. The [enabled] key of the notifications section has no effect:
    the notifier the daemon builds at start and on reload, and the result of
    [Validate], are the same for both values. Only the type "none" (or any
    unknown type) silences the notifier. *)
Theorem Enabled_flag_has_no_effect
    (env : gmap string string) (conf : config.Config) (enabled : bool)
    (st : daemon.State) :
  daemon.d_notifier (daemon.New (obs.set_Enabled conf enabled))
    = daemon.d_notifier (daemon.New conf)
  /\ daemon.d_notifier
       (daemon.onConfigReload (daemon.set_config st (obs.set_Enabled conf enabled)))
     = daemon.d_notifier (daemon.onConfigReload (daemon.set_config st conf))
  /\ config.Validate env (obs.set_Enabled conf enabled) = config.Validate env conf
  /\ (In (config.Type_ (config.Notifications conf)) ["desktop"; "log"]
      \/ daemon.d_notifier (daemon.New conf) = notify.Nop).
Proof.
  repeat split.
  - unfold daemon.onConfigReload, daemon.stopPipeline. simpl.
    destruct (daemon.d_pipeline st); reflexivity.
  - unfold daemon.New, notify.NewNotifier. simpl.
    destruct (String.eqb_spec (config.Type_ (config.Notifications conf)) "desktop") as [E | _];
      [left; rewrite E; tauto |].
    destruct (String.eqb_spec (config.Type_ (config.Notifications conf)) "log") as [E | _];
      [left; rewrite E; tauto |].
    right. reflexivity.
Qed.

(** X23. When [hasCustomMessages] reports that nothing is customised,
    every notifier built from the resolved table behaves exactly as with the
    defaults, for every message type. A custom title on one of the two error
    messages, which [hasCustomMessages] does not look at, is never shown. *)
Theorem no_custom_messages_means_defaults
    (m : config.MessagesConfig) (notifType : string) (mt : notify.MessageType) :
  cli.hasCustomMessages m = false ->
  notify.Send (notify.NewNotifier notifType (config.Resolve m)) mt
  = notify.Send (notify.NewNotifier notifType (config.Resolve obs.zero_messages)) mt.
Proof.
  intros H. unfold cli.hasCustomMessages in H.
  repeat match type of H with
         | (_ || _) = false => apply orb_false_elim in H as [H ?]
         end.
  repeat match goal with
         | E : negb (String.eqb _ "") = false |- _ =>
             apply negb_false_iff, String.eqb_eq in E
         end.
  destruct m as [[t0 b0] [t1 b1] [t2 b2] [t3 b3] [t4 b4] [t5 b5]].
  simpl in *. subst.
  destruct (In_dec Z.eq_dec mt (notify.Type_ <$> notify.MessageDefs)) as [Hin | Hout].
  - apply in_map_iff in Hin as (def & <- & Hin).
    unfold notify.NewNotifier, notify.NewDesktop, notify.NewLog.
    destruct (String.eqb notifType "desktop"); [| destruct (String.eqb notifType "log")];
      try reflexivity; unfold notify.Send; cbv beta iota;
      rewrite !(Resolve_lookup _ def Hin);
      simpl in Hin;
      repeat (destruct Hin as [<- | Hin]; [reflexivity |]);
      destruct Hin.
  - unfold notify.NewNotifier, notify.NewDesktop, notify.NewLog.
    destruct (String.eqb notifType "desktop"); [| destruct (String.eqb notifType "log")];
      try reflexivity; unfold notify.Send; cbv beta iota;
      rewrite !(Resolve_lookup_other _ mt Hout); reflexivity.
Qed.

Lemma no_custom_messages_means_defaults_witness :
  notify.Send
    (notify.NewNotifier "desktop"
       (config.Resolve
          {| config.RecordingStarted := config.zero_MessageConfig;
             config.Transcribing := config.zero_MessageConfig;
             config.ConfigReloaded := config.zero_MessageConfig;
             config.OperationCancelled := config.zero_MessageConfig;
             config.RecordingAborted := {| config.Title := "Oops"; config.Body := "" |};
             config.InjectionAborted := config.zero_MessageConfig |}))
    notify.MsgRecordingAborted
  = notify.Send (notify.NewNotifier "desktop" (config.Resolve obs.zero_messages))
      notify.MsgRecordingAborted.
Proof.
  apply no_custom_messages_means_defaults. reflexivity.
Defined.

(** ** The daemon *)

(** X24. [stopPipeline] is idempotent. After it the slot is nil and the
    observed status is Idle; the pipeline the slot referred to has been told
    to stop and every other pipeline is untouched. *)
Theorem stopPipeline_idempotent (st : daemon.State) :
  daemon.stopPipeline (daemon.stopPipeline st) = daemon.stopPipeline st
  /\ daemon.d_pipeline (daemon.stopPipeline st) = None
  /\ daemon.status (daemon.stopPipeline st) = pipeline.Idle
  /\ match daemon.d_pipeline st with
     | None => daemon.heap (daemon.stopPipeline st) = daemon.heap st
     | Some r =>
         daemon.heap (daemon.stopPipeline st)
         = match daemon.heap st !! r with
           | Some p => <[r := pipeline.Stop p]> (daemon.heap st)
           | None => daemon.heap st
           end
         /\ daemon.heap (daemon.stopPipeline st) !! r
            = pipeline.Stop <$> daemon.heap st !! r
     end.
Proof.
  unfold daemon.stopPipeline, daemon.status.
  destruct (daemon.d_pipeline st) as [r |]; [| repeat split].
  repeat split.
  cbn [daemon.heap daemon.set_pipeline].
  destruct (daemon.heap st !! r) as [p |] eqn:E; simpl.
  - apply list_lookup_insert_eq. exact (lookup_lt_Some _ _ _ E).
  - exact E.
Qed.

(** X25. After [cancelPipeline] the observed status is always Idle. When
    it was Idle before, nothing but the log changes and no notification is
    sent; otherwise the slot is cleared, the pipeline stopped, and exactly the
    operation-cancelled message is sent. *)
Theorem cancelPipeline_leaves_idle (st : daemon.State) :
  daemon.status (daemon.cancelPipeline st) = pipeline.Idle
  /\ match daemon.status st with
     | pipeline.Idle =>
         daemon.d_pipeline (daemon.cancelPipeline st) = daemon.d_pipeline st
         /\ daemon.heap (daemon.cancelPipeline st) = daemon.heap st
         /\ daemon.notified (daemon.cancelPipeline st) = daemon.notified st
     | _ =>
         daemon.d_pipeline (daemon.cancelPipeline st) = None
         /\ daemon.heap (daemon.cancelPipeline st)
            = daemon.heap (daemon.stopPipeline st)
         /\ daemon.notified (daemon.cancelPipeline st)
            = daemon.notified st
              ++ notify.Send (daemon.d_notifier st) notify.MsgOperationCancelled
     end.
Proof.
  destruct (stopPipeline_effect st) as [_ S].
  assert (N : daemon.notified (daemon.stopPipeline st) = daemon.notified st
              /\ daemon.d_notifier (daemon.stopPipeline st) = daemon.d_notifier st).
  { unfold daemon.stopPipeline. destruct (daemon.d_pipeline st); split; reflexivity. }
  destruct N as [N1 N2].
  unfold daemon.cancelPipeline.
  destruct (daemon.status st) eqn:E; simpl.
  - split; [exact E | repeat split].
  - unfold daemon.status. simpl. rewrite S, N1, N2. repeat split.
  - unfold daemon.status. simpl. rewrite S, N1, N2. repeat split.
  - unfold daemon.status. simpl. rewrite S, N1, N2. repeat split.
Qed.

(** X26. [handle] looks at the first byte of the request line only:
    whatever follows the command byte before the newline is ignored, so a
    request such as "toggle" acts as [t]. *)
Theorem handle_reads_first_byte_only
    (ProtoVer : string) (c : daemon.Conn) (st : daemon.State)
    (cmd : ascii) (rest : string) :
  daemon.ReadString c = (String cmd rest, None) ->
  daemon.handle ProtoVer c st = daemon.handle ProtoVer (obs.just c cmd) st.
Proof.
  intros R. unfold daemon.handle. rewrite R.
  unfold daemon.ReadString, obs.just. cbn [daemon.written daemon.until_newline daemon.nl].
  destruct (Ascii.eqb cmd daemon.newline); [reflexivity |].
  rewrite Ascii.eqb_refl. reflexivity.
Qed.

Lemma handle_reads_first_byte_only_witness :
  daemon.handle "1" (examples.closed_after ("toggle" +:+ daemon.nl))
    (daemon.New config.default_Config)
  = daemon.handle "1" (examples.closed_after ("t" +:+ daemon.nl))
      (daemon.New config.default_Config).
Proof.
  apply (handle_reads_first_byte_only "1"
           (examples.closed_after ("toggle" +:+ daemon.nl))
           (daemon.New config.default_Config) "t" ("oggle" +:+ daemon.nl)).
  reflexivity.
Defined.

(** X27. The status and version queries are read-only: the reply is
    [STATUS status=] with the name of the observed status, or [STATUS proto=]
    with the protocol version, and the daemon is left as it was apart from
    the handler's own wait-group count. *)
Theorem handle_queries_are_read_only
    (ProtoVer : string) (c : daemon.Conn) (st : daemon.State)
    (cmd : ascii) (rest : string) :
  daemon.ReadString c = (String cmd rest, None) ->
  In cmd ["s"%char; "v"%char] ->
  daemon.handle ProtoVer c st
  = (if Ascii.eqb cmd "s"
     then "STATUS status=" +:+ pipeline.Status_string (daemon.status st) +:+ daemon.nl
     else "STATUS proto=" +:+ ProtoVer +:+ daemon.nl,
     daemon.wg_add st (-1)).
Proof.
  intros R Hcmd. unfold daemon.handle. rewrite R.
  destruct Hcmd as [<- | [<- | []]]; reflexivity.
Qed.

Lemma handle_queries_are_read_only_witness :
  daemon.handle "1" (examples.closed_after ("s" +:+ daemon.nl)) examples.session_recording
  = ("STATUS status=recording" +:+ daemon.nl,
     daemon.wg_add examples.session_recording (-1)).
Proof.
  apply (handle_queries_are_read_only "1"
           (examples.closed_after ("s" +:+ daemon.nl))
           examples.session_recording "s" daemon.nl).
  - reflexivity.
  - simpl. tauto.
Defined.







Lemma drive_keeps_stopped p p' :
  pipeline.drive p p' -> pipeline.p_stopped p' = pipeline.p_stopped p.
Proof. intros []; reflexivity. Qed.

Lemma slot_live_stop st : obs.slot_live (daemon.stopPipeline st).
Proof.
  unfold obs.slot_live. destruct (stopPipeline_effect st) as [_ S].
  rewrite S. exact I.
Qed.

Lemma slot_live_toggle st : obs.slot_live st -> obs.slot_live (daemon.toggle st).
Proof.
  intros L. unfold daemon.toggle.
  destruct (daemon.status st).
  - unfold obs.slot_live. simpl.
    exists (pipeline.Run (pipeline.New (daemon.d_config st))).
    split; [| reflexivity].
    rewrite lookup_app_r by lia. rewrite Nat.sub_diag. reflexivity.
  - apply (slot_live_stop st).
  - unfold obs.slot_live in *.
    destruct (daemon.d_pipeline st) as [r |] eqn:S; simpl; [| rewrite S; exact I].
    destruct L as (p & Hp & Hs). rewrite Hp. simpl.
    exists (pipeline.send p pipeline.Inject). split; [| exact Hs].
    apply list_lookup_insert_eq. exact (lookup_lt_Some _ _ _ Hp).
  - apply (slot_live_stop st).
Qed.

Lemma slot_live_handle ProtoVer c st :
  obs.slot_live st -> obs.slot_live (snd (daemon.handle ProtoVer c st)).
Proof.
  intros L. unfold daemon.handle.
  destruct (daemon.ReadString c) as [line [err |]]; [exact L |].
  destruct line as [|cmd rest]; [exact L |].
  destruct (Ascii.eqb cmd "t"); [exact (slot_live_toggle st L) |].
  destruct (Ascii.eqb cmd "c").
  { unfold daemon.cancelPipeline.
    destruct (daemon.status st); [exact L | ..]; apply (slot_live_stop st). }
  repeat match goal with
         | |- context [Ascii.eqb ?a ?b] => destruct (Ascii.eqb a b)
         end; exact L.
Qed.

(** X29. In every reachable state the pipeline in the daemon's slot, if
    any, exists and has never been told to stop: [stopPipeline] is the only
    caller of [Stop], and it clears the slot in the same step. *)
Theorem reachable_slot_never_stopped
    (ProtoVer : string) (st : daemon.State) :
  daemon.reachable ProtoVer st -> obs.slot_live st.
Proof.
  induction 1 as [conf | st st' _ L S]; [exact I |].
  destruct S as [st c | st conf | st r p p' Hp Hd].
  - apply slot_live_handle. exact L.
  - unfold daemon.onConfigReload.
    apply (slot_live_stop (daemon.log (daemon.set_config st conf) _)).
  - unfold obs.slot_live in *. simpl.
    destruct (daemon.d_pipeline st) as [r0 |]; [| exact I].
    destruct L as (p0 & Hp0 & Hs).
    destruct (decide (r = r0)) as [-> | Hne].
    + exists p'. split.
      * apply list_lookup_insert_eq. exact (lookup_lt_Some _ _ _ Hp).
      * rewrite (drive_keeps_stopped p p' Hd). congruence.
    + exists p0. split; [| exact Hs].
      rewrite list_lookup_insert_ne by exact Hne. exact Hp0.
Qed.

Lemma reachable_slot_never_stopped_witness :
  obs.slot_live (examples.after_toggle examples.session_over).
Proof.
  apply (reachable_slot_never_stopped "1").
  apply (daemon.reachable_step "1" examples.session_over).
  - exact session_over_reachable.
  - apply daemon.step_handle.
Defined.

(** ** The configuration wizard's helpers *)

Lemma length_append (s1 s2 : string) :
  String.length (s1 +:+ s2) = (String.length s1 + String.length s2)%nat.
Proof.
  induction s1 as [|a s1 IH]; [reflexivity |].
  change (S (String.length (s1 +:+ s2)) = S (String.length s1 + String.length s2)).
  f_equal. exact IH.
Qed.

Lemma append_assoc (s1 s2 s3 : string) :
  (s1 +:+ s2) +:+ s3 = s1 +:+ s2 +:+ s3.
Proof.
  induction s1 as [|a s1 IH]; [reflexivity |].
  change (String a ((s1 +:+ s2) +:+ s3) = String a (s1 +:+ s2 +:+ s3)).
  f_equal. exact IH.
Qed.

Lemma substring_skip (skipped kept : string) (n : nat) :
  String.substring (String.length skipped) n (skipped +:+ kept)
  = String.substring 0 n kept.
Proof.
  induction skipped as [|a skipped IH]; [reflexivity |].
  change (String.substring (String.length skipped) n (skipped +:+ kept)
          = String.substring 0 n kept).
  exact IH.
Qed.

Lemma substring_all (s : string) :
  String.substring 0 (String.length s) s = s.
Proof. induction s as [|a s IH]; simpl; [reflexivity | f_equal; exact IH]. Qed.

Lemma substring_prefix (kept dropped : string) :
  String.substring 0 (String.length kept) (kept +:+ dropped) = kept.
Proof.
  induction kept as [|a kept IH].
  - destruct dropped; reflexivity.
  - change (String a (String.substring 0 (String.length kept) (kept +:+ dropped))
            = String a kept).
    f_equal. exact IH.
Qed.

(** X30. [maskAPIKey] shows of a key longer than eight bytes its first
    four and last four bytes around four asterisks, and nothing of what lies
    between: two keys that differ only in the middle are masked alike. A
    non-empty key of at most eight bytes is masked entirely. *)
Theorem maskAPIKey_hides_the_middle (first middle last : string) :
  String.length first = 4%nat ->
  String.length last = 4%nat ->
  middle <> "" ->
  cli.maskAPIKey (first +:+ middle +:+ last) = first +:+ "****" +:+ last
  /\ forall key : string,
      key = "" \/ (8 < String.length key)%nat \/ cli.maskAPIKey key = "****".
Proof.
  intros Hf Hl Hm. split.
  - unfold cli.maskAPIKey.
    assert (Len : String.length (first +:+ middle +:+ last)
                  = (4 + String.length middle + 4)%nat).
    { rewrite !length_append, Hf, Hl. lia. }
    assert (Hmid : (0 < String.length middle)%nat).
    { destruct middle; [contradiction | simpl; lia]. }
    destruct (String.eqb_spec (first +:+ middle +:+ last) "") as [E | _].
    { rewrite E in Len. simpl in Len. lia. }
    rewrite Len.
    destruct (Nat.leb_spec (4 + String.length middle + 4) 8) as [Hle | _]; [lia |].
    rewrite <- Hf at 1. rewrite substring_prefix.
    replace (4 + String.length middle + 4 - 4)%nat
      with (String.length (first +:+ middle))
      by (rewrite length_append, Hf; lia).
    rewrite <- (append_assoc first middle last).
    rewrite substring_skip. rewrite <- Hl at 1. rewrite substring_all.
    reflexivity.
  - intros key. unfold cli.maskAPIKey.
    destruct (String.eqb_spec key "") as [E | _]; [left; exact E | right].
    destruct (Nat.leb_spec (String.length key) 8) as [Hle | Hgt];
      [right; reflexivity | left; exact Hgt].
Qed.

Lemma maskAPIKey_hides_the_middle_witness :
  cli.maskAPIKey "sk-1abcdefghijklmnopWXYZ" = "sk-1****WXYZ".
Proof.
  apply (maskAPIKey_hides_the_middle "sk-1" "abcdefghijklmnop" "WXYZ");
    [reflexivity | reflexivity | discriminate].
Defined.
